(** * knowledge_bridge.py: the knowledge-base bridge, embedded and verified

    A shallow embedding of [apps/knowledge-base/knowledge_bridge.py]:
    the three operations of [KnowledgeBridge] ([search], [stats],
    [health]) and the command-line entry point [main].

    Python values are an inductive type, Python exceptions are explicit
    ([outcome] is the error monad of a call that returns or raises), the
    backend class [FSHDPDFProcessor] is an interface, and a process run
    is a record of what was written to the standard streams and how the
    process ended. *)

From Stdlib Require Import List String Ascii ZArith Lia Bool Arith.
From Stdlib Require Import DecimalString.
From Stdlib Require Import Floats.SpecFloat.
Import ListNotations.
Local Open Scope string_scope.

(** ** Python values *)

(** The values the program handles: what [json.load] produces, what the
    command line carries and what the backend returns.  A dict is an
    association list with string keys in insertion order (the first
    binding of a key is the one a lookup sees); [PObject cls] is an
    instance of a plain class [cls]: it is truthy, has no length, no
    subscript, no [get] attribute, and [json.dumps] refuses it. *)
#[warnings="-register-all"]
Inductive pyval : Type :=
| PNone
| PBool (b : bool)
| PInt (z : Z)
| PFloat (f : spec_float)
| PStr (s : string)
| PList (l : list pyval)
| PDict (d : list (string * pyval))
| PObject (cls : string).

(** [type(v).__name__], as it appears in the interpreter's messages. *)
Definition type_name (v : pyval) : string :=
  match v with
  | PNone => "NoneType"
  | PBool _ => "bool"
  | PInt _ => "int"
  | PFloat _ => "float"
  | PStr _ => "str"
  | PList _ => "list"
  | PDict _ => "dict"
  | PObject cls => cls
  end.

(** ** Exceptions *)

(** The exception classes the program can meet.  [KeyboardInterrupt]
    and [SystemExit] (what [sys.exit] raises, here with an integer
    code) derive from [BaseException] only, so [except Exception] lets
    them through; every other class derives from [Exception]. *)
Inductive exn_class : Type :=
| KeyError
| IndexError
| TypeError
| AttributeError
| JSONDecodeError
| OtherException (name : string)
| KeyboardInterrupt
| SystemExit (code : Z).

Record pyexn : Type := mkExn {
  exn_cls : exn_class;
  exn_str : string          (* str(e) *)
}.

Definition is_Exception (e : pyexn) : bool :=
  match exn_cls e with
  | KeyboardInterrupt | SystemExit _ => false
  | _ => true
  end.

Definition is_JSONDecodeError (e : pyexn) : bool :=
  match exn_cls e with
  | JSONDecodeError => true
  | _ => false
  end.

(** A call either returns a value or raises. *)
Inductive outcome (A : Type) : Type :=
| Ret (a : A)
| Raise (e : pyexn).
Arguments Ret {A} a.
Arguments Raise {A} e.

Definition bind {A B : Type} (m : outcome A) (k : A -> outcome B) : outcome B :=
  match m with
  | Ret a => k a
  | Raise e => Raise e
  end.

Declare Scope py_scope.
Delimit Scope py_scope with py.
Notation "x <- m ;; k" := (bind m (fun x => k))
  (at level 61, m at next level, right associativity) : py_scope.
Local Open Scope py_scope.

(** [try: body  except Exception as e: handler e] *)
Definition try_except_Exception {A : Type}
    (body : outcome A) (handler : pyexn -> outcome A) : outcome A :=
  match body with
  | Ret a => Ret a
  | Raise e => if is_Exception e then handler e else Raise e
  end.

(** [try: body  except json.JSONDecodeError as e: handler e] *)
Definition try_except_JSONDecodeError {A : Type}
    (body : outcome A) (handler : pyexn -> outcome A) : outcome A :=
  match body with
  | Ret a => Ret a
  | Raise e => if is_JSONDecodeError e then handler e else Raise e
  end.

(** ** The interpreter's primitives used by the program *)

Fixpoint dict_lookup (d : list (string * pyval)) (key : string) : option pyval :=
  match d with
  | [] => None
  | (k, v) :: rest => if String.eqb k key then Some v else dict_lookup rest key
  end.

(** The field [key] of a value, when the value is a dict that has it. *)
Definition field (v : pyval) (key : string) : option pyval :=
  match v with
  | PDict d => dict_lookup d key
  | _ => None
  end.

(** A str is a sequence of code points; [string] holds its UTF-8 bytes.
    A byte of the form 10xxxxxx continues the code point before it. *)
Definition is_continuation (a : ascii) : bool :=
  let n := nat_of_ascii a in ((128 <=? n)%nat && (n <? 192)%nat)%bool.

Fixpoint code_points_aux (s : string) : string * list string :=
  match s with
  | EmptyString => (EmptyString, [])
  | String a rest =>
      let '(pending, done) := code_points_aux rest in
      if is_continuation a then (String a pending, done)
      else (EmptyString, String a pending :: done)
  end.

Definition code_points (s : string) : list string :=
  let '(pending, done) := code_points_aux s in
  match pending with
  | EmptyString => done
  | _ => pending :: done
  end.

(** Number of keys of a dict: later bindings of a key are shadowed. *)
Definition dict_len (d : list (string * pyval)) : nat :=
  List.length (nodup string_dec (map fst d)).

(** [bool(v)] *)
Definition truthy (v : pyval) : bool :=
  match v with
  | PNone => false
  | PBool b => b
  | PInt z => negb (Z.eqb z 0)
  | PFloat (S754_zero _) => false
  | PFloat _ => true
  | PStr EmptyString => false
  | PStr _ => true
  | PList [] => false
  | PList _ => true
  | PDict d => negb (Nat.eqb (dict_len d) 0)
  | PObject _ => true
  end.

(** [len(v)] *)
Definition py_len (v : pyval) : outcome nat :=
  match v with
  | PStr s => Ret (List.length (code_points s))
  | PList l => Ret (List.length l)
  | PDict d => Ret (dict_len d)
  | _ => Raise (mkExn TypeError
                  ("object of type '" ++ type_name v ++ "' has no len()"))
  end.

(** [str(i)] for a non-negative int. *)
Definition str_of_nat (i : nat) : string :=
  NilZero.string_of_uint (Nat.to_uint i).

Definition not_subscriptable (v : pyval) : pyexn :=
  mkExn TypeError ("'" ++ type_name v ++ "' object is not subscriptable").

(** [v[key]] for one of the string literals the program subscripts with
    (their [repr], the text of the [KeyError], is the key in quotes). *)
Definition getitem_str (v : pyval) (key : string) : outcome pyval :=
  match v with
  | PDict d =>
      match dict_lookup d key with
      | Some x => Ret x
      | None => Raise (mkExn KeyError ("'" ++ key ++ "'"))
      end
  | PList _ =>
      Raise (mkExn TypeError "list indices must be integers or slices, not str")
  | PStr _ =>
      Raise (mkExn TypeError "string indices must be integers, not 'str'")
  | _ => Raise (not_subscriptable v)
  end.

(** [v[i]] for a non-negative int [i] (the program subscripts with 0 and
    with the loop variable of [range(len(...))]). *)
Definition getitem_idx (v : pyval) (i : nat) : outcome pyval :=
  match v with
  | PList l =>
      match nth_error l i with
      | Some x => Ret x
      | None => Raise (mkExn IndexError "list index out of range")
      end
  | PStr s =>
      match nth_error (code_points s) i with
      | Some c => Ret (PStr c)
      | None => Raise (mkExn IndexError "string index out of range")
      end
  | PDict _ => Raise (mkExn KeyError (str_of_nat i))
  | _ => Raise (not_subscriptable v)
  end.

(** [v.get(key, default)]: only a dict has the method. *)
Definition py_get (v : pyval) (key : string) (default : pyval) : outcome pyval :=
  match v with
  | PDict d =>
      match dict_lookup d key with
      | Some x => Ret x
      | None => Ret default
      end
  | _ => Raise (mkExn AttributeError
                  ("'" ++ type_name v ++ "' object has no attribute 'get'"))
  end.

(** [v == s] for a string literal [s]. *)
Definition eq_str (v : pyval) (s : string) : bool :=
  match v with
  | PStr t => String.eqb t s
  | _ => false
  end.

(** The class of the first object [json.dumps] cannot serialise, if any. *)
Fixpoint unserializable (v : pyval) : option string :=
  match v with
  | PList l =>
      (fix in_list (l : list pyval) : option string :=
         match l with
         | [] => None
         | x :: rest =>
             match unserializable x with
             | Some cls => Some cls
             | None => in_list rest
             end
         end) l
  | PDict d =>
      (fix in_dict (d : list (string * pyval)) : option string :=
         match d with
         | [] => None
         | (_, x) :: rest =>
             match unserializable x with
             | Some cls => Some cls
             | None => in_dict rest
             end
         end) d
  | PObject cls => Some cls
  | _ => None
  end.

(** [for x in xs: state = body x state], stopping at the first raise. *)
Fixpoint for_each {A S : Type} (xs : list A) (body : A -> S -> outcome S)
    (s : S) : outcome S :=
  match xs with
  | [] => Ret s
  | x :: rest => s' <- body x s ;; for_each rest body s'
  end.

(** ** The backend: class [FSHDPDFProcessor]

    The class is imported from [fshd_pdf_processor]; the bridge uses its
    constructor, two methods and [collection.count()]. *)
Class FSHDPDFProcessor : Type := {
  (* FSHDPDFProcessor() *)
  processor_init : outcome unit;
  (* processor.search_fshd_knowledge(question=, n_results=, language_filter=) *)
  search_fshd_knowledge : pyval -> pyval -> pyval -> outcome pyval;
  (* processor.get_collection_stats() *)
  get_collection_stats : outcome pyval;
  (* processor.collection.count() *)
  collection_count : outcome pyval
}.

(** The interpreter's [repr] of the values whose [str] is their [repr]
    and is not written out here (floats, lists, dicts, objects). *)
Class Interpreter : Type := {
  py_repr : pyval -> string
}.

(** [str(v)], what an f-string field [{v}] renders. *)
Definition py_str `{Interpreter} (v : pyval) : string :=
  match v with
  | PStr s => s
  | PNone => "None"
  | PBool true => "True"
  | PBool false => "False"
  | PInt z => NilZero.string_of_int (Z.to_int z)
  | _ => py_repr v
  end.

(** ** class KnowledgeBridge *)

Module KnowledgeBridge.
Section Bridge.
Context {backend : FSHDPDFProcessor}.

(** [__init__]: [self.processor = FSHDPDFProcessor()]. *)
Definition init : outcome unit := processor_init.

(** One turn of the loop of [search]: the dict appended for index [i]. *)
Definition result_item (results : pyval) (i : nat) : outcome pyval :=
  ids <- getitem_str results "ids" ;;
  id <- (if truthy ids
         then (ids0 <- getitem_idx ids 0 ;; getitem_idx ids0 i)
         else Ret (PStr ("result_" ++ str_of_nat i))) ;;
  documents <- getitem_str results "documents" ;;
  documents0 <- getitem_idx documents 0 ;;
  content <- getitem_idx documents0 i ;;
  metadatas <- getitem_str results "metadatas" ;;
  metadata <- (if truthy metadatas
               then (metadatas0 <- getitem_idx metadatas 0 ;;
                     getitem_idx metadatas0 i)
               else Ret (PDict [])) ;;
  got <- py_get results "distances" PNone ;;
  distance <- (if truthy got
               then (distances <- getitem_str results "distances" ;;
                     distances0 <- getitem_idx distances 0 ;;
                     getitem_idx distances0 i)
               else Ret PNone) ;;
  Ret (PDict [("id", id); ("content", content);
              ("metadata", metadata); ("distance", distance)]).

(** [len(results["documents"][0])] *)
Definition len_documents0 (results : pyval) : outcome nat :=
  documents <- getitem_str results "documents" ;;
  documents0 <- getitem_idx documents 0 ;;
  py_len documents0.

(** The body of the [try] of [search].  [formatted["results"]] is the
    list the loop appends to; it is threaded through the loop and put
    under its key when [formatted] is returned. *)
Definition search_try (question n_results language_filter : pyval)
    : outcome pyval :=
  results <- search_fshd_knowledge question n_results language_filter ;;
  documents <- getitem_str results "documents" ;;
  total_results <- (if truthy documents then len_documents0 results
                    else Ret 0%nat) ;;
  documents' <- getitem_str results "documents" ;;
  nonempty <- (if truthy documents'
               then (n <- len_documents0 results ;; Ret (0 <? n)%nat)
               else Ret false) ;;
  formatted_results <-
    (if nonempty : bool
     then (n <- len_documents0 results ;;
           for_each (seq 0 n)
             (fun i appended =>
                item <- result_item results i ;; Ret (appended ++ [item])%list)
             [])
     else Ret []) ;;
  Ret (PDict [("success", PBool true);
              ("question", question);
              ("total_results", PInt (Z.of_nat total_results));
              ("results", PList formatted_results)]).

Definition search_failed (question : pyval) (e : pyexn) : pyval :=
  PDict [("success", PBool false);
         ("error", PStr (exn_str e));
         ("question", question)].

Definition search (question n_results language_filter : pyval)
    : outcome pyval :=
  try_except_Exception
    (search_try question n_results language_filter)
    (fun e => Ret (search_failed question e)).

Definition stats : outcome pyval :=
  try_except_Exception
    (stats <- get_collection_stats ;;
     Ret (PDict [("success", PBool true); ("stats", stats)]))
    (fun e => Ret (PDict [("success", PBool false);
                          ("error", PStr (exn_str e))])).

Definition health : outcome pyval :=
  try_except_Exception
    (count <- collection_count ;;
     Ret (PDict [("success", PBool true);
                 ("status", PStr "healthy");
                 ("collection", PStr "fshd_knowledge_base");
                 ("total_chunks", count)]))
    (fun e => Ret (PDict [("success", PBool false);
                          ("status", PStr "unhealthy");
                          ("error", PStr (exn_str e))])).

End Bridge.
End KnowledgeBridge.

(** ** The process: arguments, standard streams, exit status *)

(** The namespace [parser.parse_args()] returns.  [args_command] is
    [None] when no subcommand was given; the three options of [search]
    are only read when the subcommand is [search]. *)
Record Namespace : Type := {
  args_stdin : bool;
  args_command : option string;
  args_question : string;
  args_n_results : Z;
  args_language : option string
}.

(** What [argparse] does with the command line: it returns a namespace,
    or prints the help on standard output and exits 0 ([-h]), or prints
    usage and an error on standard error and exits 2. *)
Inductive parse_result : Type :=
| Parsed (args : Namespace)
| HelpRequested
| ArgumentError.

(** One run of the program, from the call of [main] on (the module is
    loaded, so the import of [fshd_pdf_processor] went through): its
    command line as [argparse] reads it and what [json.load(sys.stdin)]
    does when it is called. *)
Record Invocation : Type := {
  argv_parse : parse_result;
  stdin_json : outcome pyval
}.

(** What is written to standard output: the text [json.dumps] makes of
    a value, kept as the value, or the parser's help text. *)
Inductive document : Type :=
| Json (v : pyval)
| Help.

Inductive diagnostic : Type :=
| UsageError.

Record streams : Type := {
  stdout : list document;
  stderr : list diagnostic
}.

(** Code that writes to the streams and returns or raises. *)
Definition io (A : Type) : Type := streams -> streams * outcome A.

Definition io_ret {A : Type} (a : A) : io A := fun s => (s, Ret a).

Definition io_bind {A B : Type} (m : io A) (k : A -> io B) : io B :=
  fun s =>
    match m s with
    | (s', Ret a) => k a s'
    | (s', Raise e) => (s', Raise e)
    end.

Definition lift {A : Type} (o : outcome A) : io A := fun s => (s, o).

(** Writing to a stream that accepts the text ([stdout_encodes], further
    down, says when standard output does). *)
Definition write_stdout (d : document) : io unit :=
  fun s => ({| stdout := stdout s ++ [d]; stderr := stderr s |}, Ret tt).

Definition write_stderr (d : diagnostic) : io unit :=
  fun s => ({| stdout := stdout s; stderr := stderr s ++ [d] |}, Ret tt).

Declare Scope io_scope.
Delimit Scope io_scope with io.
Notation "x <- m ;; k" := (io_bind m (fun x => k))
  (at level 61, m at next level, right associativity) : io_scope.

(** [sys.exit(status)] *)
Definition sys_exit {A : Type} (status : Z) : io A :=
  lift (Raise (mkExn (SystemExit status)
                 (NilZero.string_of_int (Z.to_int status)))).

(** [parser.parse_args()] *)
Definition parse_args (inv : Invocation) : io Namespace :=
  match argv_parse inv with
  | Parsed args => io_ret args
  | HelpRequested => (_ <- write_stdout Help ;; sys_exit 0)%io
  | ArgumentError => (_ <- write_stderr UsageError ;; sys_exit 2)%io
  end.

(** [parser.print_help()]: the file defaults to [sys.stdout]. *)
Definition print_help : io unit := write_stdout Help.

(** [json.dumps(v, ensure_ascii=False, indent=2)] *)
Definition json_dumps (v : pyval) : outcome document :=
  match unserializable v with
  | None => Ret (Json v)
  | Some cls =>
      Raise (mkExn TypeError
               ("Object of type " ++ cls ++ " is not JSON serializable"))
  end.

Definition option_str (o : option string) : pyval :=
  match o with
  | Some s => PStr s
  | None => PNone
  end.

(** [args.command == name] *)
Definition command_is (args : Namespace) (name : string) : bool :=
  match args_command args with
  | Some c => String.eqb c name
  | None => false
  end.

Section Main.
Context {interp : Interpreter} {backend : FSHDPDFProcessor}.

(** The body of the [try] of document mode. *)
Definition stdin_try (inv : Invocation) : outcome pyval :=
  input_data <- stdin_json inv ;;
  command <- py_get input_data "command" (PStr "search") ;;
  if eq_str command "search" then
    question <- py_get input_data "question" (PStr "") ;;
    n_results <- py_get input_data "n_results" (PInt 3) ;;
    language <- py_get input_data "language" PNone ;;
    KnowledgeBridge.search question n_results language
  else if eq_str command "stats" then KnowledgeBridge.stats
  else if eq_str command "health" then KnowledgeBridge.health
  else Ret (PDict [("success", PBool false);
                   ("error", PStr ("未知命令: " ++ py_str command))]).

Definition stdin_mode (inv : Invocation) : outcome pyval :=
  try_except_JSONDecodeError
    (stdin_try inv)
    (fun e => Ret (PDict [("success", PBool false);
                          ("error", PStr ("JSON解析错误: " ++ exn_str e))])).

(** The [else] of [if args.stdin]. *)
Definition flag_mode (args : Namespace) : io pyval :=
  if command_is args "search" then
    lift (KnowledgeBridge.search (PStr (args_question args))
            (PInt (args_n_results args)) (option_str (args_language args)))
  else if command_is args "stats" then lift KnowledgeBridge.stats
  else if command_is args "health" then lift KnowledgeBridge.health
  else (_ <- print_help ;; sys_exit 1)%io.

Definition main (inv : Invocation) : io unit :=
  (args <- parse_args inv ;;
   bridge <- lift KnowledgeBridge.init ;;
   result <- (if args_stdin args then lift (stdin_mode inv)
              else flag_mode args) ;;
   text <- lift (json_dumps result) ;;
   write_stdout text)%io.

(** How the run ends, as the caller of the process sees it.  The
    traceback of [uncaught] goes to standard error after what [stderr]
    lists.  A [SystemExit] leaves its code modulo 256 as the status.
    The streams are taken to accept what is written to them: for
    standard output, which encodes UTF-8, that is so exactly when the
    text holds no lone surrogate ([stdout_encodes] below); the
    statements that promise a printed envelope for text that comes from
    outside establish it. *)
Record Process : Type := {
  output : streams;
  exit_status : Z;
  (* the exception the interpreter reports, when one ended the run *)
  uncaught : option pyexn
}.

Definition run (inv : Invocation) : Process :=
  let '(s, r) := main inv {| stdout := []; stderr := [] |} in
  match r with
  | Ret _ => {| output := s; exit_status := 0; uncaught := None |}
  | Raise e =>
      match exn_cls e with
      | SystemExit status =>
          {| output := s; exit_status := status mod 256; uncaught := None |}
      | KeyboardInterrupt =>
          {| output := s; exit_status := 130; uncaught := Some e |}
      | _ => {| output := s; exit_status := 1; uncaught := Some e |}
      end
  end.

End Main.

(** ** Vocabulary of the statements *)

(** An envelope is a success or a failure by its [success] field. *)
Definition is_success (env : pyval) : Prop :=
  field env "success" = Some (PBool true).

Definition is_failure (env : pyval) : Prop :=
  field env "success" = Some (PBool false).

(** [column[0][i]], the entry of index [i] in the first sequence of a
    column of the backend's result. *)
Definition entry (column : pyval) (i : nat) : outcome pyval :=
  first <- getitem_idx column 0 ;; getitem_idx first i.

(** The backend supplied [v] at index [i] of the column named [name]. *)
Definition supplied (results : pyval) (name : string) (i : nat) (v : pyval)
    : Prop :=
  exists column,
    field results name = Some column /\ truthy column = true /\
    entry column i = Ret v.

(** The column named [name] carries nothing: it is [None] or empty. *)
Definition missing (results : pyval) (name : string) : Prop :=
  exists column, field results name = Some column /\ truthy column = false.

(** [needle] occurs in [hay]. *)
Definition contains (hay needle : string) : Prop :=
  exists before after, hay = before ++ needle ++ after.

(** What [json.load] returns is made of JSON data, and so is what the
    contract of the backend promises; such values serialise. *)
Definition serializable (v : pyval) : Prop := unserializable v = None.

(** A call that, when it raises, raises an instance of [Exception]. *)
Definition raises_Exception {A : Type} (m : outcome A) : Prop :=
  forall e, m = Raise e -> is_Exception e = true.

(** The backend raises instances of [Exception] only. *)
Definition raises_only_Exception (backend : FSHDPDFProcessor) : Prop :=
  (forall q n l e, search_fshd_knowledge q n l = Raise e ->
                   is_Exception e = true) /\
  (forall e, get_collection_stats = Raise e -> is_Exception e = true) /\
  (forall e, collection_count = Raise e -> is_Exception e = true).

(** The backend returns serialisable values only. *)
Definition returns_serializable (backend : FSHDPDFProcessor) : Prop :=
  (forall q n l r, search_fshd_knowledge q n l = Ret r -> serializable r) /\
  (forall r, get_collection_stats = Ret r -> serializable r) /\
  (forall r, collection_count = Ret r -> serializable r).

(** Flag mode with no recognised subcommand: the last [else] of [main]. *)
Definition usage_case (args : Namespace) : Prop :=
  args_stdin args = false /\
  command_is args "search" = false /\
  command_is args "stats" = false /\
  command_is args "health" = false.

(** ** Sample backends and invocations *)

Module Samples.

Definition quarter : pyval := PFloat (S754_finite false 1 (-2)).
Definition half : pyval := PFloat (S754_finite false 1 (-1)).

Definition no_such_collection : pyexn :=
  mkExn (OtherException "ValueError") "Collection fshd_knowledge_base does not exist.".

(** Two hits with every column filled. *)
Definition two_hits : pyval :=
  PDict [("ids", PList [PList [PStr "doc1_chunk0"; PStr "doc2_chunk4"]]);
         ("documents", PList [PList [PStr "FSHD is inherited"; PStr "DUX4"]]);
         ("metadatas", PList [PList [PDict [("language", PStr "en")];
                                     PDict [("language", PStr "zh")]]]);
         ("distances", PList [PList [quarter; half]])].

(** What [search] makes of [two_hits]. *)
Definition two_hits_envelope : pyval :=
  PDict [("success", PBool true);
         ("question", PStr "What is FSHD?");
         ("total_results", PInt 2);
         ("results",
          PList [PDict [("id", PStr "doc1_chunk0");
                        ("content", PStr "FSHD is inherited");
                        ("metadata", PDict [("language", PStr "en")]);
                        ("distance", quarter)];
                 PDict [("id", PStr "doc2_chunk4");
                        ("content", PStr "DUX4");
                        ("metadata", PDict [("language", PStr "zh")]);
                        ("distance", half)]])].

(** Two hits with documents only: ids and metadatas are [None], and
    there is no distances key. *)
Definition bare_hits : pyval :=
  PDict [("ids", PNone);
         ("documents", PList [PList [PStr "FSHD is inherited"; PStr "DUX4"]]);
         ("metadatas", PNone)].

(** Ragged columns: two documents, one id. *)
Definition ragged_hits : pyval :=
  PDict [("ids", PList [PList [PStr "doc1_chunk0"]]);
         ("documents", PList [PList [PStr "FSHD is inherited"; PStr "DUX4"]]);
         ("metadatas", PNone)].

(** A backend that works and answers every query with [answer]. *)
Definition answering (answer : pyval) : FSHDPDFProcessor := {|
  processor_init := Ret tt;
  search_fshd_knowledge := fun _ _ _ => Ret answer;
  get_collection_stats := Ret (PDict [("total_chunks", PInt 42)]);
  collection_count := Ret (PInt 42)
|}.

(** A backend whose handle is built but whose collection is gone. *)
Definition collection_gone : FSHDPDFProcessor := {|
  processor_init := Ret tt;
  search_fshd_knowledge := fun _ _ _ => Raise no_such_collection;
  get_collection_stats := Raise no_such_collection;
  collection_count := Raise no_such_collection
|}.

(** A backend whose constructor raises. *)
Definition cannot_start : FSHDPDFProcessor := {|
  processor_init := Raise no_such_collection;
  search_fshd_knowledge := fun _ _ _ => Raise no_such_collection;
  get_collection_stats := Raise no_such_collection;
  collection_count := Raise no_such_collection
|}.

Definition python : Interpreter := {| py_repr := fun v => "<" ++ type_name v ++ ">" |}.

Definition flags (command : option string) : Namespace := {|
  args_stdin := false;
  args_command := command;
  args_question := "What is FSHD?";
  args_n_results := 1;
  args_language := None
|}.

Definition with_stdin : Namespace := {|
  args_stdin := true;
  args_command := None;
  args_question := "";
  args_n_results := 3;
  args_language := None
|}.

(** [knowledge_bridge.py <command>], nothing on standard input. *)
Definition flag_invocation (command : option string) : Invocation := {|
  argv_parse := Parsed (flags command);
  stdin_json := Raise (mkExn JSONDecodeError
                         "Expecting value: line 1 column 1 (char 0)")
|}.

(** [knowledge_bridge.py --stdin] reading what [json.load] makes of the
    text on standard input. *)
Definition document_invocation (loaded : outcome pyval) : Invocation := {|
  argv_parse := Parsed with_stdin;
  stdin_json := loaded
|}.

(** [json.load] on the text [{not valid json]. *)
Definition not_valid_json : outcome pyval :=
  Raise (mkExn JSONDecodeError
           "Expecting property name enclosed in double quotes: line 1 column 2 (char 1)").

End Samples.

(** ** The statements the code does not meet, as they are worded *)

Definition is_number (v : pyval) : Prop :=
  match v with
  | PInt _ | PFloat _ => True
  | _ => False
  end.

(** "The length of [results] never exceeds the requested result-count." *)
Definition results_within_requested_count (backend : FSHDPDFProcessor)
    (q : pyval) (count : Z) (l : pyval) : Prop :=
  forall env items,
    KnowledgeBridge.search q (PInt count) l = Ret env ->
    is_success env ->
    field env "results" = Some (PList items) ->
    (Z.of_nat (List.length items) <= count)%Z.

(** The run that prints [result] as its only output and exits 0. *)
Definition printed (result : pyval) : Process := {|
  output := {| stdout := [Json result]; stderr := [] |};
  exit_status := 0;
  uncaught := None
|}.

(** "For every invocation except flag mode with no recognised
    subcommand, exactly one JSON envelope is written to standard output
    and no exception escapes the program." *)
Definition one_envelope_always (interp : Interpreter)
    (backend : FSHDPDFProcessor) (inv : Invocation) : Prop :=
  forall args,
    argv_parse inv = Parsed args -> ~ usage_case args ->
    (exists env, stdout (output (run inv)) = [Json env]) /\
    uncaught (run inv) = None.

(** "In document mode, when the text on standard input is not valid
    JSON, the program emits a failure envelope as its sole
    standard-output document and exits with status zero; it does not
    crash." *)
Definition malformed_json_always_reported (interp : Interpreter)
    (backend : FSHDPDFProcessor) (inv : Invocation) : Prop :=
  forall args e,
    argv_parse inv = Parsed args -> args_stdin args = true ->
    stdin_json inv = Raise e -> is_JSONDecodeError e = true ->
    (exists env, is_failure env /\ stdout (output (run inv)) = [Json env]) /\
    exit_status (run inv) = 0%Z /\
    uncaught (run inv) = None.

(** "In flag mode with no recognised subcommand, the program prints
    usage text, exits with non-zero status and produces no JSON
    envelope; the usage text goes to a non-data channel." *)
Definition usage_kept_off_stdout (interp : Interpreter)
    (backend : FSHDPDFProcessor) (inv : Invocation) : Prop :=
  forall args,
    argv_parse inv = Parsed args -> usage_case args ->
    stdout (output (run inv)) = [] /\
    stderr (output (run inv)) <> [] /\
    exit_status (run inv) <> 0%Z.

(** "In document mode, for every mapping whose [command] is not one of
    [search], [stats], [health], the program emits a failure envelope
    whose [error] contains the offending value." *)
Definition unknown_command_always_reported (interp : Interpreter)
    (backend : FSHDPDFProcessor) (inv : Invocation) : Prop :=
  forall args d command,
    argv_parse inv = Parsed args -> args_stdin args = true ->
    stdin_json inv = Ret (PDict d) ->
    dict_lookup d "command" = Some command ->
    command <> PStr "search" -> command <> PStr "stats" ->
    command <> PStr "health" ->
    exists env error,
      stdout (output (run inv)) = [Json env] /\
      is_failure env /\
      field env "error" = Some (PStr error) /\
      contains error (py_str command).

(** ** Vocabulary of the further properties *)

(** A column whose first sequence has an entry for each of the first
    [n] indices, or that carries nothing. *)
Definition column_covers (column : pyval) (n : nat) : Prop :=
  truthy column = false \/
  exists xs rest, column = PList (PList xs :: rest) /\ (n <= List.length xs)%nat.

(** A column whose first sequence is shorter than [n]. *)
Definition column_short (column : pyval) (n : nat) : Prop :=
  exists xs rest, column = PList (PList xs :: rest) /\ (List.length xs < n)%nat.

(** [d.get(key, default)] on a dict, as a value. *)
Definition get_or (d : list (string * pyval)) (key : string) (default : pyval)
    : pyval :=
  match dict_lookup d key with
  | Some x => x
  | None => default
  end.

(** Further sample backends. *)
Module MoreSamples.

(** The backend call is interrupted from the keyboard. *)
Definition interrupted : FSHDPDFProcessor := {|
  processor_init := Ret tt;
  search_fshd_knowledge := fun _ _ _ => Raise (mkExn KeyboardInterrupt "");
  get_collection_stats := Raise (mkExn KeyboardInterrupt "");
  collection_count := Raise (mkExn KeyboardInterrupt "")
|}.

(** The statistics hold an object [json.dumps] does not know. *)
Definition dated_stats : FSHDPDFProcessor := {|
  processor_init := Ret tt;
  search_fshd_knowledge := fun _ _ _ => Ret Samples.two_hits;
  get_collection_stats :=
    Ret (PDict [("total_chunks", PInt 42);
                ("last_updated", PObject "datetime")]);
  collection_count := Ret (PInt 42)
|}.

(** An interpreter whose [repr] writes ASCII only, as Python's does for
    what is not printable. *)
Definition escaping : Interpreter := {|
  py_repr := fun v =>
    match v with
    | PObject _ => "<object>"
    | _ => "<" ++ type_name v ++ ">"
    end
|}.

End MoreSamples.

(** ** What standard output can encode

    [print] hands the text to [sys.stdout], which encodes UTF-8.  A str
    may hold lone surrogates (JSON's [\ud800] escape gives one, and so
    does an undecodable byte of the command line); [string] then holds
    them as the three bytes ED A0..BF 80..BF, which well-formed UTF-8
    never has, and the encoder raises [UnicodeEncodeError] on them. *)

Definition starts_surrogate (a b : ascii) : bool :=
  ((nat_of_ascii a =? 237)%nat && (160 <=? nat_of_ascii b)%nat)%bool.

(** The str holds a lone surrogate. *)
Fixpoint lone_surrogate (s : string) : bool :=
  match s with
  | EmptyString => false
  | String a rest =>
      (match rest with
       | String b _ => starts_surrogate a b
       | EmptyString => false
       end || lone_surrogate rest)%bool
  end.

(** No str of the value, key or entry, holds a lone surrogate. *)
Fixpoint encodable (v : pyval) : bool :=
  match v with
  | PStr s => negb (lone_surrogate s)
  | PList l =>
      (fix all_of (l : list pyval) : bool :=
         match l with
         | [] => true
         | x :: rest => (encodable x && all_of rest)%bool
         end) l
  | PDict d =>
      (fix all_of (d : list (string * pyval)) : bool :=
         match d with
         | [] => true
         | (k, x) :: rest =>
             (negb (lone_surrogate k) && encodable x && all_of rest)%bool
         end) d
  | _ => true
  end.

(** Standard output encodes the document: the numbers, the literals and
    the punctuation of JSON are ASCII, so it is a matter of the strs. *)
Definition stdout_encodes (d : document) : bool :=
  match d with
  | Json v => encodable v
  | Help => true
  end.

(** The str is made of ASCII characters. *)
Fixpoint ascii_only (s : string) : bool :=
  match s with
  | EmptyString => true
  | String a rest => ((nat_of_ascii a <? 128)%nat && ascii_only rest)%bool
  end.

(** A call whose exception, when it raises, has a text with no lone
    surrogate. *)
Definition raises_encodable {A : Type} (m : outcome A) : Prop :=
  forall e, m = Raise e -> lone_surrogate (exn_str e) = false.

(** What the backend returns and the text of what it raises hold no
    lone surrogate. *)
Definition speaks_encodable (backend : FSHDPDFProcessor) : Prop :=
  (forall q n l r, search_fshd_knowledge q n l = Ret r -> encodable r = true) /\
  (forall r, get_collection_stats = Ret r -> encodable r = true) /\
  (forall r, collection_count = Ret r -> encodable r = true) /\
  (forall q n l, raises_encodable (search_fshd_knowledge q n l)) /\
  raises_encodable get_collection_stats /\
  raises_encodable collection_count.

(** ** The model at work *)

Example code_points_ascii : code_points "abc" = ["a"; "b"; "c"].
Proof. reflexivity. Qed.

Example code_points_cjk : List.length (code_points "未知命令: x") = 7%nat.
Proof. reflexivity. Qed.

Example placeholder_10 : "result_" ++ str_of_nat 10 = "result_10".
Proof. reflexivity. Qed.

Example search_two_hits :
  @KnowledgeBridge.search (Samples.answering Samples.two_hits)
    (PStr "What is FSHD?") (PInt 2) (PStr "en") =
  Ret Samples.two_hits_envelope.
Proof. reflexivity. Qed.

Example search_no_match :
  @KnowledgeBridge.search
    (Samples.answering
       (PDict [("ids", PList [PList []]); ("documents", PList [PList []]);
               ("metadatas", PList [PList []]);
               ("distances", PList [PList []])]))
    (PStr "What is FSHD?") (PInt 3) PNone =
  Ret (PDict [("success", PBool true);
              ("question", PStr "What is FSHD?");
              ("total_results", PInt 0);
              ("results", PList [])]).
Proof. reflexivity. Qed.

Example search_missing_key :
  @KnowledgeBridge.search (Samples.answering (PDict []))
    (PStr "What is FSHD?") (PInt 3) PNone =
  Ret (PDict [("success", PBool false);
              ("error", PStr "'documents'");
              ("question", PStr "What is FSHD?")]).
Proof. reflexivity. Qed.

Example run_stats :
  @run Samples.python (Samples.answering Samples.two_hits)
    (Samples.flag_invocation (Some "stats")) =
  printed (PDict [("success", PBool true);
                  ("stats", PDict [("total_chunks", PInt 42)])]).
Proof. reflexivity. Qed.

Example run_document_search :
  stdout (output
    (@run Samples.python Samples.collection_gone
       (Samples.document_invocation
          (Ret (PDict [("question", PStr "What is FSHD?")]))))) =
  [Json (PDict [("success", PBool false);
                ("error",
                 PStr "Collection fshd_knowledge_base does not exist.");
                ("question", PStr "What is FSHD?")])].
Proof. reflexivity. Qed.

Example run_bad_arguments :
  @run Samples.python (Samples.answering Samples.two_hits)
    {| argv_parse := ArgumentError; stdin_json := Samples.not_valid_json |} =
  {| output := {| stdout := []; stderr := [UsageError] |};
     exit_status := 2;
     uncaught := None |}.
Proof. reflexivity. Qed.

(** ** Reasoning about calls that return *)

Lemma bind_Ret {A B : Type} (m : outcome A) (k : A -> outcome B) (b : B) :
  bind m k = Ret b -> exists a, m = Ret a /\ k a = Ret b.
Proof.
  destruct m as [a|e]; simpl; intro H; [exists a; auto | discriminate].
Qed.

Lemma bind_Raise {A B : Type} (m : outcome A) (k : A -> outcome B) (e : pyexn) :
  bind m k = Raise e ->
  m = Raise e \/ exists a, m = Ret a /\ k a = Raise e.
Proof.
  destruct m as [a|e']; simpl; intro H.
  - right; exists a; auto.
  - left; injection H as ->; reflexivity.
Qed.

(** Splits a hypothesis [x <- m ;; k = Ret b] into its two calls. *)
Tactic Notation "bind_inv" hyp(H) "as" ident(a) ident(Ha) :=
  apply bind_Ret in H; destruct H as (a & Ha & H).

Lemma try_except_Exception_Ret {A : Type} (body : outcome A)
    (handler : pyexn -> outcome A) (a : A) :
  try_except_Exception body handler = Ret a ->
  body = Ret a \/
  exists e, body = Raise e /\ is_Exception e = true /\ handler e = Ret a.
Proof.
  unfold try_except_Exception.
  destruct body as [x|e]; intro H.
  - left; exact H.
  - destruct (is_Exception e) eqn:Ee; [|discriminate].
    right; exists e; auto.
Qed.

Lemma try_except_Exception_Raise {A : Type} (body : outcome A)
    (handler : pyexn -> outcome A) (e : pyexn) :
  (forall e', exists a, handler e' = Ret a) ->
  try_except_Exception body handler = Raise e -> is_Exception e = false.
Proof.
  unfold try_except_Exception.
  intros Hh.
  destruct body as [x|e0]; [discriminate|].
  destruct (is_Exception e0) eqn:Ee.
  - destruct (Hh e0) as [a Ha]; rewrite Ha; discriminate.
  - intro H; injection H as <-; exact Ee.
Qed.

(** The loop of [search] appends one item per index, in order. *)
Lemma loop_appends `{FSHDPDFProcessor} (results : pyval) :
  forall n start appended out,
    for_each (seq start n)
      (fun i acc =>
         item <- KnowledgeBridge.result_item results i ;;
         Ret (acc ++ [item])%list)
      appended = Ret out ->
    exists items,
      out = (appended ++ items)%list /\ List.length items = n /\
      forall k item, nth_error items k = Some item ->
                     KnowledgeBridge.result_item results (start + k) = Ret item.
Proof.
  induction n as [|n IH]; intros start appended out Hloop; simpl in Hloop.
  - injection Hloop as <-. exists []. rewrite app_nil_r.
    repeat split. intros [|k] item Hk; discriminate.
  - bind_inv Hloop as acc Hbody. bind_inv Hbody as item0 Hitem0.
    injection Hbody as <-.
    apply IH in Hloop. destruct Hloop as (items & -> & Hlen & Hitems).
    exists (item0 :: items). rewrite <- app_assoc. simpl.
    repeat split; [now f_equal|].
    intros [|k] item Hk; simpl in Hk.
    + injection Hk as <-. now rewrite Nat.add_0_r.
    + rewrite Nat.add_succ_r. apply (Hitems k item Hk).
Qed.

Lemma getitem_str_field (v : pyval) (key : string) (x : pyval) :
  getitem_str v key = Ret x -> field v key = Some x.
Proof.
  destruct v; simpl; try discriminate.
  destruct (dict_lookup d key); [|discriminate].
  now intros [= ->].
Qed.

Lemma search_returns_failure_or_try `{FSHDPDFProcessor} q n l env :
  KnowledgeBridge.search q n l = Ret env ->
  KnowledgeBridge.search_try q n l = Ret env \/
  exists e, KnowledgeBridge.search_try q n l = Raise e /\
            is_Exception e = true /\
            env = KnowledgeBridge.search_failed q e.
Proof.
  intro Hs. apply try_except_Exception_Ret in Hs.
  destruct Hs as [Hs | (e & He & Hexc & Hh)]; [now left|].
  right. exists e. injection Hh as <-. auto.
Qed.

(** A success envelope of [search] comes from the [try] body. *)
Lemma search_success_try `{FSHDPDFProcessor} q n l env :
  KnowledgeBridge.search q n l = Ret env -> is_success env ->
  KnowledgeBridge.search_try q n l = Ret env.
Proof.
  intros Hs Hok.
  destruct (search_returns_failure_or_try _ _ _ _ Hs)
    as [Ht | (e & _ & _ & ->)]; [exact Ht|].
  discriminate Hok.
Qed.

(** What the [try] body of [search] returns, in terms of what the backend
    returned. *)
Lemma search_try_returns `{FSHDPDFProcessor} q n l env :
  KnowledgeBridge.search_try q n l = Ret env ->
  exists results documents items,
    search_fshd_knowledge q n l = Ret results /\
    field results "documents" = Some documents /\
    env = PDict [("success", PBool true);
                 ("question", q);
                 ("total_results", PInt (Z.of_nat (List.length items)));
                 ("results", PList items)] /\
    (if truthy documents
     then exists first, getitem_idx documents 0 = Ret first /\
                        py_len first = Ret (List.length items)
     else items = []) /\
    (forall i item, nth_error items i = Some item ->
                    KnowledgeBridge.result_item results i = Ret item).
Proof.
  unfold KnowledgeBridge.search_try. intro Ht.
  bind_inv Ht as results Hcall.
  bind_inv Ht as documents Hdocs.
  bind_inv Ht as total Htotal.
  bind_inv Ht as documents' Hdocs'.
  rewrite Hdocs in Hdocs'. injection Hdocs' as <-.
  bind_inv Ht as nonempty Hnonempty.
  bind_inv Ht as items Hitems.
  injection Ht as <-.
  exists results, documents, items.
  split; [exact Hcall|]. split; [now apply getitem_str_field|].
  destruct (truthy documents) eqn:Etruthy.
  - (* the documents column is there *)
    bind_inv Hnonempty as n' Hn'. injection Hnonempty as <-.
    rewrite Htotal in Hn'. injection Hn' as <-.
    assert (Hfirst : exists first, getitem_idx documents 0 = Ret first /\
                                   py_len first = Ret total).
    { unfold KnowledgeBridge.len_documents0 in Htotal.
      bind_inv Htotal as d Hd. rewrite Hdocs in Hd. injection Hd as <-.
      bind_inv Htotal as first Hfirst. exists first. auto. }
    destruct (0 <? total)%nat eqn:Epos.
    + bind_inv Hitems as n'' Hn''.
      rewrite Htotal in Hn''. injection Hn'' as <-.
      apply loop_appends in Hitems.
      destruct Hitems as (items' & -> & Hlen & Hitems). simpl.
      rewrite Hlen. repeat split; auto.
    + injection Hitems as <-. apply Nat.ltb_ge in Epos.
      assert (total = 0%nat) as -> by lia.
      simpl. repeat split; auto.
      intros [|i] item Hi; discriminate.
  - injection Htotal as <-. injection Hnonempty as <-.
    injection Hitems as <-.
    simpl. repeat split; auto.
    intros [|i] item Hi; discriminate.
Qed.

(** What one turn of the loop builds, field by field. *)
Lemma result_item_returns `{FSHDPDFProcessor} results i item :
  KnowledgeBridge.result_item results i = Ret item ->
  exists id content metadata distance,
    item = PDict [("id", id); ("content", content);
                  ("metadata", metadata); ("distance", distance)] /\
    (supplied results "ids" i id \/
     (missing results "ids" /\ id = PStr ("result_" ++ str_of_nat i))) /\
    (supplied results "metadatas" i metadata \/
     (missing results "metadatas" /\ metadata = PDict [])) /\
    (field results "distances" = None -> distance = PNone) /\
    (forall column, field results "distances" = Some column ->
       if truthy column then entry column i = Ret distance
       else distance = PNone).
Proof.
  unfold KnowledgeBridge.result_item. intro Hi.
  bind_inv Hi as ids Hids. bind_inv Hi as id Hid.
  bind_inv Hi as documents Hdocs. bind_inv Hi as documents0 Hdocs0.
  bind_inv Hi as content Hcontent.
  bind_inv Hi as metadatas Hmds. bind_inv Hi as metadata Hmd.
  bind_inv Hi as got Hgot. bind_inv Hi as distance Hdist.
  injection Hi as <-.
  exists id, content, metadata, distance.
  apply getitem_str_field in Hids, Hmds.
  split; [reflexivity|]. split; [|split; [|split]].
  - destruct (truthy ids) eqn:Et.
    + left. exists ids. auto.
    + right. injection Hid as <-. split; [exists ids|]; auto.
  - destruct (truthy metadatas) eqn:Et.
    + left. exists metadatas. auto.
    + right. injection Hmd as <-. split; [exists metadatas|]; auto.
  - intro Hnone. destruct results; try discriminate Hdocs.
    simpl in Hnone, Hgot. rewrite Hnone in Hgot. injection Hgot as <-.
    simpl in Hdist. now injection Hdist as <-.
  - intros column Hcol. destruct results; try discriminate Hdocs.
    simpl in Hcol, Hgot. rewrite Hcol in Hgot. injection Hgot as <-.
    destruct (truthy column) eqn:Et.
    + bind_inv Hdist as distances Hd.
      simpl in Hd. rewrite Hcol in Hd. injection Hd as <-.
      exact Hdist.
    + now injection Hdist as <-.
Qed.

(** C2: in every success envelope of [search], every item of [results]
    has an [id] field, holding the id the backend supplied at the item's
    index or, when the ids column is missing, the placeholder
    [result_<index>] (0-based), and a [metadata] field, holding the
    metadata the backend supplied at that index or, when the metadatas
    column is missing, the empty mapping. *)
Theorem search_items_have_id_and_metadata
    (backend : FSHDPDFProcessor) (q n l env : pyval)
    (items : list pyval) (i : nat) (item : pyval) :
  KnowledgeBridge.search q n l = Ret env ->
  is_success env ->
  field env "results" = Some (PList items) ->
  nth_error items i = Some item ->
  exists results id metadata,
    search_fshd_knowledge q n l = Ret results /\
    field item "id" = Some id /\
    field item "metadata" = Some metadata /\
    (supplied results "ids" i id \/
     (missing results "ids" /\ id = PStr ("result_" ++ str_of_nat i))) /\
    (supplied results "metadatas" i metadata \/
     (missing results "metadatas" /\ metadata = PDict [])).
Proof.
  intros Hs Hok Hres Hi.
  apply search_success_try in Hs; [|exact Hok].
  apply search_try_returns in Hs.
  destruct Hs as (results & documents & items' & Hcall & _ & -> & _ & Hitems).
  simpl in Hres. injection Hres as ->.
  apply Hitems, result_item_returns in Hi.
  destruct Hi as (id & content & metadata & distance & -> & Hid & Hmd & _).
  exists results, id, metadata. auto.
Qed.

Lemma search_items_have_id_and_metadata_witness :
  exists results id metadata,
    @search_fshd_knowledge (Samples.answering Samples.bare_hits)
      (PStr "What is FSHD?") (PInt 2) PNone = Ret results /\
    field (PDict [("id", PStr "result_1"); ("content", PStr "DUX4");
                  ("metadata", PDict []); ("distance", PNone)]) "id"
      = Some id /\
    field (PDict [("id", PStr "result_1"); ("content", PStr "DUX4");
                  ("metadata", PDict []); ("distance", PNone)]) "metadata"
      = Some metadata /\
    (supplied results "ids" 1 id \/
     (missing results "ids" /\ id = PStr ("result_" ++ str_of_nat 1))) /\
    (supplied results "metadatas" 1 metadata \/
     (missing results "metadatas" /\ metadata = PDict [])).
Proof.
  eapply (search_items_have_id_and_metadata
            (Samples.answering Samples.bare_hits)
            (PStr "What is FSHD?") (PInt 2) PNone _ _ 1);
    reflexivity.
Defined.

Lemma entry_of_lists (ds rest : list pyval) (i : nat) (v : pyval) :
  entry (PList (PList ds :: rest)) i = Ret v -> nth_error ds i = Some v.
Proof.
  unfold entry. simpl. destruct (nth_error ds i); [|discriminate].
  now intros [= ->].
Qed.

(** C7: in every success envelope of [search], every item has a
    [distance] field.  When the backend's result carries no distances
    sequence (no such key, or [None], or an empty one) the field is an
    explicit null; when it carries one, the field is the value found at
    the item's index in that sequence, a number whenever the backend's
    distances are numbers. *)
Theorem search_distance_null_or_positional
    (backend : FSHDPDFProcessor) (q n l env : pyval)
    (items : list pyval) (i : nat) (item : pyval) :
  KnowledgeBridge.search q n l = Ret env ->
  is_success env ->
  field env "results" = Some (PList items) ->
  nth_error items i = Some item ->
  exists results distance,
    search_fshd_knowledge q n l = Ret results /\
    field item "distance" = Some distance /\
    (field results "distances" = None -> distance = PNone) /\
    (missing results "distances" -> distance = PNone) /\
    (forall column, field results "distances" = Some column ->
       truthy column = true -> entry column i = Ret distance) /\
    (forall ds rest,
       field results "distances" = Some (PList (PList ds :: rest)) ->
       nth_error ds i = Some distance /\
       (Forall is_number ds -> is_number distance)).
Proof.
  intros Hs Hok Hres Hi.
  apply search_success_try in Hs; [|exact Hok].
  apply search_try_returns in Hs.
  destruct Hs as (results & documents & items' & Hcall & _ & -> & _ & Hitems).
  simpl in Hres. injection Hres as ->.
  apply Hitems, result_item_returns in Hi.
  destruct Hi as (id & content & metadata & distance & -> & _ & _ & Hno & Hcol).
  exists results, distance.
  split; [exact Hcall|]. split; [reflexivity|].
  split; [exact Hno|]. split; [|split].
  - intros (column & Hfield & Hfalsy).
    specialize (Hcol column Hfield). now rewrite Hfalsy in Hcol.
  - intros column Hfield Htruthy.
    specialize (Hcol column Hfield). now rewrite Htruthy in Hcol.
  - intros ds rest Hfield.
    specialize (Hcol _ Hfield). simpl in Hcol.
    apply entry_of_lists in Hcol. split; [exact Hcol|].
    intro Hall. rewrite Forall_forall in Hall.
    apply Hall. eapply nth_error_In, Hcol.
Qed.

Lemma search_distance_null_or_positional_witness :
  exists results distance,
    @search_fshd_knowledge (Samples.answering Samples.two_hits)
      (PStr "What is FSHD?") (PInt 2) PNone = Ret results /\
    field (PDict [("id", PStr "doc2_chunk4"); ("content", PStr "DUX4");
                  ("metadata", PDict [("language", PStr "zh")]);
                  ("distance", Samples.half)]) "distance" = Some distance /\
    (field results "distances" = None -> distance = PNone) /\
    (missing results "distances" -> distance = PNone) /\
    (forall column, field results "distances" = Some column ->
       truthy column = true -> entry column 1 = Ret distance) /\
    (forall ds rest,
       field results "distances" = Some (PList (PList ds :: rest)) ->
       nth_error ds 1 = Some distance /\
       (Forall is_number ds -> is_number distance)).
Proof.
  eapply (search_distance_null_or_positional
            (Samples.answering Samples.two_hits)
            (PStr "What is FSHD?") (PInt 2) PNone _ _ 1);
    reflexivity.
Defined.

(** C3, as amended: in every success envelope of [search],
    [total_results] is the length of [results], which is the length of
    the first documents sequence the backend returned when the documents
    column is there, and 0 when it is [None] or empty.  The bridge does
    not cut that sequence: [results] stays within the requested
    result-count whenever the backend's sequence does. *)
Theorem search_total_results
    (backend : FSHDPDFProcessor) (q n l env : pyval) :
  KnowledgeBridge.search q n l = Ret env ->
  is_success env ->
  exists results documents items,
    search_fshd_knowledge q n l = Ret results /\
    field results "documents" = Some documents /\
    field env "results" = Some (PList items) /\
    field env "total_results" = Some (PInt (Z.of_nat (List.length items))) /\
    (if truthy documents
     then exists first, getitem_idx documents 0 = Ret first /\
                        py_len first = Ret (List.length items)
     else items = []) /\
    (forall first rest,
       documents = PList (PList first :: rest) ->
       List.length items = List.length first) /\
    (forall count first m,
       n = PInt count ->
       getitem_idx documents 0 = Ret first -> py_len first = Ret m ->
       (Z.of_nat m <= count)%Z ->
       (Z.of_nat (List.length items) <= count)%Z).
Proof.
  intros Hs Hok.
  apply search_success_try in Hs; [|exact Hok].
  apply search_try_returns in Hs.
  destruct Hs as (results & documents & items & Hcall & Hdocs & -> & Hlen & _).
  exists results, documents, items.
  repeat (split; [first [assumption | reflexivity]|]).
  split.
  - intros first rest ->. simpl in Hlen.
    destruct Hlen as (first' & [= <-] & [= ->]). reflexivity.
  - intros count first m _ Hfirst Hm Hle.
    destruct (truthy documents).
    + destruct Hlen as (first' & Hfirst' & Hm').
      rewrite Hfirst in Hfirst'. injection Hfirst' as <-.
      rewrite Hm in Hm'. injection Hm' as ->. exact Hle.
    + subst items. simpl. lia.
Qed.

Lemma search_total_results_witness :
  exists results documents items,
    @search_fshd_knowledge (Samples.answering Samples.two_hits)
      (PStr "What is FSHD?") (PInt 2) PNone = Ret results /\
    field results "documents" = Some documents /\
    field Samples.two_hits_envelope "results" = Some (PList items) /\
    field Samples.two_hits_envelope "total_results"
      = Some (PInt (Z.of_nat (List.length items))) /\
    (if truthy documents
     then exists first, getitem_idx documents 0 = Ret first /\
                        py_len first = Ret (List.length items)
     else items = []) /\
    (forall first rest,
       documents = PList (PList first :: rest) ->
       List.length items = List.length first) /\
    (forall count first m,
       PInt 2 = PInt count ->
       getitem_idx documents 0 = Ret first -> py_len first = Ret m ->
       (Z.of_nat m <= count)%Z ->
       (Z.of_nat (List.length items) <= count)%Z).
Proof.
  apply (search_total_results (Samples.answering Samples.two_hits)
           (PStr "What is FSHD?") (PInt 2) PNone
           Samples.two_hits_envelope eq_refl eq_refl).
Defined.

(** C3 as worded fails: asked for one result, a backend that returns two
    documents gets two items through. *)
Lemma results_can_exceed_requested_count :
  ~ results_within_requested_count (Samples.answering Samples.two_hits)
      (PStr "What is FSHD?") 1 PNone.
Proof.
  intro Hclaim.
  specialize (Hclaim _ _ eq_refl eq_refl eq_refl).
  simpl in Hclaim. lia.
Qed.

(** ** What the bridge's own code can raise *)

Lemma raises_Exception_Ret {A : Type} (a : A) : raises_Exception (Ret a).
Proof. intros e H; discriminate. Qed.

Lemma raises_Exception_bind {A B : Type} (m : outcome A) (k : A -> outcome B) :
  raises_Exception m -> (forall a, raises_Exception (k a)) ->
  raises_Exception (bind m k).
Proof.
  intros Hm Hk e He. apply bind_Raise in He.
  destruct He as [He | (a & _ & He)]; [now apply Hm | now apply (Hk a)].
Qed.

Lemma raises_Exception_if {A : Type} (b : bool) (m1 m2 : outcome A) :
  raises_Exception m1 -> raises_Exception m2 ->
  raises_Exception (if b then m1 else m2).
Proof. now destruct b. Qed.

Lemma getitem_str_raises v key : raises_Exception (getitem_str v key).
Proof.
  intros e; destruct v; simpl; try (now intros [= <-]).
  destruct (dict_lookup d key); [discriminate | now intros [= <-]].
Qed.

Lemma getitem_idx_raises v i : raises_Exception (getitem_idx v i).
Proof.
  intros e; destruct v; simpl; try (now intros [= <-]).
  - destruct (nth_error (code_points s) i); [discriminate | now intros [= <-]].
  - destruct (nth_error l i); [discriminate | now intros [= <-]].
Qed.

Lemma py_len_raises v : raises_Exception (py_len v).
Proof. intros e; destruct v; simpl; try discriminate; now intros [= <-]. Qed.

Lemma py_get_raises v key default : raises_Exception (py_get v key default).
Proof.
  intros e; destruct v; simpl; try (now intros [= <-]).
  destruct (dict_lookup d key); discriminate.
Qed.

Lemma for_each_raises {A S : Type} (xs : list A) (body : A -> S -> outcome S) :
  (forall x s, raises_Exception (body x s)) ->
  forall s, raises_Exception (for_each xs body s).
Proof.
  intro Hbody. induction xs as [|x xs IH]; intro s; simpl.
  - apply raises_Exception_Ret.
  - apply raises_Exception_bind; [apply Hbody | exact IH].
Qed.

Ltac raises_step :=
  first [ apply raises_Exception_Ret
        | apply getitem_str_raises | apply getitem_idx_raises
        | apply py_len_raises | apply py_get_raises
        | apply raises_Exception_if
        | apply raises_Exception_bind; [|intro] ].

Lemma result_item_raises `{FSHDPDFProcessor} results i :
  raises_Exception (KnowledgeBridge.result_item results i).
Proof. unfold KnowledgeBridge.result_item. repeat raises_step. Qed.

Lemma len_documents0_raises `{FSHDPDFProcessor} results :
  raises_Exception (KnowledgeBridge.len_documents0 results).
Proof. unfold KnowledgeBridge.len_documents0. repeat raises_step. Qed.

(** Once the backend has returned, whatever the conversion of its result
    raises is an instance of [Exception]. *)
Lemma conversion_raises_Exception `{FSHDPDFProcessor} q n l results e :
  search_fshd_knowledge q n l = Ret results ->
  KnowledgeBridge.search_try q n l = Raise e ->
  is_Exception e = true.
Proof.
  intros Hcall. unfold KnowledgeBridge.search_try. rewrite Hcall. simpl.
  revert e. change (raises_Exception
    (documents <- getitem_str results "documents" ;;
     total_results <- (if truthy documents
                       then KnowledgeBridge.len_documents0 results
                       else Ret 0%nat) ;;
     documents' <- getitem_str results "documents" ;;
     nonempty <- (if truthy documents'
                  then (n <- KnowledgeBridge.len_documents0 results ;;
                        Ret (0 <? n)%nat)
                  else Ret false) ;;
     formatted_results <-
       (if nonempty : bool
        then (n <- KnowledgeBridge.len_documents0 results ;;
              for_each (seq 0 n)
                (fun i appended =>
                   item <- KnowledgeBridge.result_item results i ;;
                   Ret (appended ++ [item])%list)
                [])
        else Ret []) ;;
     Ret (PDict [("success", PBool true);
                 ("question", q);
                 ("total_results", PInt (Z.of_nat total_results));
                 ("results", PList formatted_results)]))).
  repeat first
    [ apply len_documents0_raises
    | apply for_each_raises; intros
    | apply result_item_raises
    | raises_step ].
Qed.

Lemma search_catches `{FSHDPDFProcessor} q n l e :
  KnowledgeBridge.search_try q n l = Raise e -> is_Exception e = true ->
  KnowledgeBridge.search q n l = Ret (KnowledgeBridge.search_failed q e).
Proof.
  intros Ht He. unfold KnowledgeBridge.search, try_except_Exception.
  now rewrite Ht, He.
Qed.

(** C5: when the backend call of [search] raises an exception, the
    response is the failure envelope with [success] false, [error] the
    exception's text and [question] the original question; the same
    holds when the backend returns and its output makes the conversion
    raise (ragged columns, for one); and [search] hands out a failure
    envelope in no other way. *)
Theorem search_failure_envelope
    (backend : FSHDPDFProcessor) (q n l : pyval) :
  (forall e,
     search_fshd_knowledge q n l = Raise e -> is_Exception e = true ->
     KnowledgeBridge.search q n l =
       Ret (PDict [("success", PBool false);
                   ("error", PStr (exn_str e));
                   ("question", q)])) /\
  (forall results e,
     search_fshd_knowledge q n l = Ret results ->
     KnowledgeBridge.search_try q n l = Raise e ->
     KnowledgeBridge.search q n l =
       Ret (PDict [("success", PBool false);
                   ("error", PStr (exn_str e));
                   ("question", q)])) /\
  (forall env,
     KnowledgeBridge.search q n l = Ret env -> is_failure env ->
     exists e,
       KnowledgeBridge.search_try q n l = Raise e /\
       is_Exception e = true /\
       env = PDict [("success", PBool false);
                    ("error", PStr (exn_str e));
                    ("question", q)]).
Proof.
  split; [|split].
  - intros e Hcall He. apply search_catches; [|exact He].
    unfold KnowledgeBridge.search_try. now rewrite Hcall.
  - intros results e Hcall Ht. apply search_catches; [exact Ht|].
    eapply conversion_raises_Exception; eassumption.
  - intros env Hs Hfail.
    destruct (search_returns_failure_or_try _ _ _ _ Hs)
      as [Ht | (e & Ht & He & ->)].
    + apply search_try_returns in Ht.
      destruct Ht as (? & ? & ? & _ & _ & -> & _). discriminate Hfail.
    + exists e. auto.
Qed.

Lemma search_failure_envelope_witness :
  @KnowledgeBridge.search Samples.collection_gone
      (PStr "What is FSHD?") (PInt 3) PNone =
    Ret (PDict [("success", PBool false);
                ("error", PStr "Collection fshd_knowledge_base does not exist.");
                ("question", PStr "What is FSHD?")]) /\
  @KnowledgeBridge.search (Samples.answering Samples.ragged_hits)
      (PStr "What is FSHD?") (PInt 3) PNone =
    Ret (PDict [("success", PBool false);
                ("error", PStr "list index out of range");
                ("question", PStr "What is FSHD?")]).
Proof.
  split.
  - apply (proj1 (search_failure_envelope Samples.collection_gone
                    (PStr "What is FSHD?") (PInt 3) PNone)
             Samples.no_such_collection); reflexivity.
  - apply (proj1 (proj2 (search_failure_envelope
                           (Samples.answering Samples.ragged_hits)
                           (PStr "What is FSHD?") (PInt 3) PNone))
             Samples.ragged_hits (mkExn IndexError "list index out of range"));
      reflexivity.
Defined.

(** C8: [health] answers with the healthy envelope, carrying the fixed
    collection name and the count, when the count call returns, and with
    the unhealthy envelope, carrying the exception's text, when it
    raises; the failure envelopes of [search] and [stats] have no
    [status] field, the one of [health] has. *)
Theorem health_envelopes (backend : FSHDPDFProcessor) :
  (forall count,
     collection_count = Ret count ->
     KnowledgeBridge.health =
       Ret (PDict [("success", PBool true);
                   ("status", PStr "healthy");
                   ("collection", PStr "fshd_knowledge_base");
                   ("total_chunks", count)])) /\
  (forall e,
     collection_count = Raise e -> is_Exception e = true ->
     KnowledgeBridge.health =
       Ret (PDict [("success", PBool false);
                   ("status", PStr "unhealthy");
                   ("error", PStr (exn_str e))])) /\
  (forall env,
     KnowledgeBridge.health = Ret env -> is_failure env ->
     field env "status" = Some (PStr "unhealthy")) /\
  (forall q n l env,
     KnowledgeBridge.search q n l = Ret env -> is_failure env ->
     field env "status" = None) /\
  (forall env,
     KnowledgeBridge.stats = Ret env -> is_failure env ->
     field env "status" = None).
Proof.
  repeat split.
  - intros count Hcount. unfold KnowledgeBridge.health. now rewrite Hcount.
  - intros e Hcount He.
    unfold KnowledgeBridge.health, try_except_Exception.
    rewrite Hcount. simpl. now rewrite He.
  - intros env Hh Hfail. apply try_except_Exception_Ret in Hh.
    destruct Hh as [Hh | (e & _ & _ & [= <-])]; [|reflexivity].
    bind_inv Hh as count Hcount. injection Hh as <-. discriminate Hfail.
  - intros q n l env Hs Hfail.
    destruct (search_returns_failure_or_try _ _ _ _ Hs)
      as [Ht | (e & _ & _ & ->)]; [|reflexivity].
    apply search_try_returns in Ht.
    destruct Ht as (? & ? & ? & _ & _ & -> & _). discriminate Hfail.
  - intros env Hs Hfail. apply try_except_Exception_Ret in Hs.
    destruct Hs as [Hs | (e & _ & _ & [= <-])]; [|reflexivity].
    bind_inv Hs as stats Hstats. injection Hs as <-. discriminate Hfail.
Qed.

Lemma health_envelopes_witness :
  @KnowledgeBridge.health (Samples.answering Samples.two_hits) =
    Ret (PDict [("success", PBool true);
                ("status", PStr "healthy");
                ("collection", PStr "fshd_knowledge_base");
                ("total_chunks", PInt 42)]) /\
  @KnowledgeBridge.health Samples.collection_gone =
    Ret (PDict [("success", PBool false);
                ("status", PStr "unhealthy");
                ("error", PStr "Collection fshd_knowledge_base does not exist.")]).
Proof.
  split.
  - apply (proj1 (health_envelopes (Samples.answering Samples.two_hits)));
      reflexivity.
  - apply (proj1 (proj2 (health_envelopes Samples.collection_gone))
             Samples.no_such_collection); reflexivity.
Defined.

(** ** What serialises *)

Lemma unserializable_cons (x : pyval) (l : list pyval) :
  unserializable (PList (x :: l)) =
  match unserializable x with
  | Some cls => Some cls
  | None => unserializable (PList l)
  end.
Proof. reflexivity. Qed.

Lemma unserializable_binding (k : string) (x : pyval) (d : list (string * pyval)) :
  unserializable (PDict ((k, x) :: d)) =
  match unserializable x with
  | Some cls => Some cls
  | None => unserializable (PDict d)
  end.
Proof. reflexivity. Qed.

Lemma serializable_list (l : list pyval) :
  serializable (PList l) <-> Forall serializable l.
Proof.
  unfold serializable. induction l as [|x l IH].
  - split; [constructor | reflexivity].
  - rewrite unserializable_cons. split.
    + intro H. destruct (unserializable x) eqn:Ex; [discriminate|].
      constructor; [exact Ex | now apply IH].
    + intro H. inversion H as [|? ? Hx Hl]; subst.
      rewrite Hx. now apply IH.
Qed.

Lemma serializable_lookup (d : list (string * pyval)) (key : string) (x : pyval) :
  serializable (PDict d) -> dict_lookup d key = Some x -> serializable x.
Proof.
  unfold serializable. induction d as [|[k v] d IH]; [discriminate|].
  rewrite unserializable_binding. simpl.
  destruct (unserializable v) eqn:Ev; [discriminate|].
  intros Hd. destruct (String.eqb k key).
  - now intros [= <-].
  - now apply IH.
Qed.

Lemma serializable_getitem_str v key x :
  serializable v -> getitem_str v key = Ret x -> serializable x.
Proof.
  intros Hv Hx. apply getitem_str_field in Hx.
  destruct v; try discriminate Hx. eapply serializable_lookup; eassumption.
Qed.

Lemma serializable_getitem_idx v i x :
  serializable v -> getitem_idx v i = Ret x -> serializable x.
Proof.
  intros Hv. destruct v; simpl; try discriminate.
  - destruct (nth_error (code_points s) i); [|discriminate].
    now intros [= <-].
  - destruct (nth_error l i) eqn:Ei; [|discriminate].
    intros [= <-]. apply serializable_list in Hv.
    rewrite Forall_forall in Hv. eapply Hv, nth_error_In, Ei.
Qed.

Lemma serializable_py_get v key default x :
  serializable v -> serializable default ->
  py_get v key default = Ret x -> serializable x.
Proof.
  intros Hv Hd. destruct v; simpl; try discriminate.
  destruct (dict_lookup d key) eqn:Ek.
  - intros [= <-]. eapply serializable_lookup; eassumption.
  - now intros [= <-].
Qed.

Lemma serializable_entry column i x :
  serializable column -> entry column i = Ret x -> serializable x.
Proof.
  intros Hc He. unfold entry in He. bind_inv He as first Hfirst.
  eapply serializable_getitem_idx; [|exact He].
  eapply serializable_getitem_idx; eassumption.
Qed.

Lemma serializable_result_item `{FSHDPDFProcessor} results i item :
  serializable results ->
  KnowledgeBridge.result_item results i = Ret item -> serializable item.
Proof.
  intros Hr Hi. unfold KnowledgeBridge.result_item in Hi.
  bind_inv Hi as ids Hids. bind_inv Hi as id Hid.
  bind_inv Hi as documents Hdocs. bind_inv Hi as documents0 Hdocs0.
  bind_inv Hi as content Hcontent.
  bind_inv Hi as metadatas Hmds. bind_inv Hi as metadata Hmd.
  bind_inv Hi as got Hgot. bind_inv Hi as distance Hdist.
  injection Hi as <-.
  pose proof (serializable_getitem_str _ _ _ Hr Hids) as Sids.
  pose proof (serializable_getitem_str _ _ _ Hr Hdocs) as Sdocs.
  pose proof (serializable_getitem_str _ _ _ Hr Hmds) as Smds.
  assert (Hid' : serializable id).
  { destruct (truthy ids).
    - exact (serializable_entry _ _ _ Sids Hid).
    - now injection Hid as <-. }
  assert (Hcontent' : serializable content).
  { eapply serializable_getitem_idx; [|exact Hcontent].
    exact (serializable_getitem_idx _ _ _ Sdocs Hdocs0). }
  assert (Hmd' : serializable metadata).
  { destruct (truthy metadatas).
    - exact (serializable_entry _ _ _ Smds Hmd).
    - now injection Hmd as <-. }
  assert (Hdist' : serializable distance).
  { destruct (truthy got).
    - bind_inv Hdist as distances Hd.
      pose proof (serializable_getitem_str _ _ _ Hr Hd) as Sd.
      exact (serializable_entry _ _ _ Sd Hdist).
    - now injection Hdist as <-. }
  unfold serializable in *.
  rewrite !unserializable_binding, Hid', Hcontent', Hmd', Hdist'.
  reflexivity.
Qed.

(** ** The three operations return an envelope *)

Lemma search_returns `{FSHDPDFProcessor} q n l :
  (forall e, search_fshd_knowledge q n l = Raise e -> is_Exception e = true) ->
  exists env, KnowledgeBridge.search q n l = Ret env.
Proof.
  intro Hraises.
  destruct (KnowledgeBridge.search_try q n l) as [env|e] eqn:Ht.
  - exists env. unfold KnowledgeBridge.search. now rewrite Ht.
  - exists (KnowledgeBridge.search_failed q e). apply search_catches; [exact Ht|].
    destruct (search_fshd_knowledge q n l) as [results|e'] eqn:Hcall.
    + eapply conversion_raises_Exception; eassumption.
    + apply Hraises. unfold KnowledgeBridge.search_try in Ht.
      rewrite Hcall in Ht. exact Ht.
Qed.

Lemma stats_returns `{FSHDPDFProcessor} :
  (forall e, get_collection_stats = Raise e -> is_Exception e = true) ->
  exists env, KnowledgeBridge.stats = Ret env.
Proof.
  intro Hraises. unfold KnowledgeBridge.stats.
  destruct get_collection_stats as [stats|e] eqn:Hcall; simpl.
  - eexists; reflexivity.
  - rewrite (Hraises e eq_refl). eexists; reflexivity.
Qed.

Lemma health_returns `{FSHDPDFProcessor} :
  (forall e, collection_count = Raise e -> is_Exception e = true) ->
  exists env, KnowledgeBridge.health = Ret env.
Proof.
  intro Hraises. unfold KnowledgeBridge.health.
  destruct collection_count as [count|e] eqn:Hcall; simpl.
  - eexists; reflexivity.
  - rewrite (Hraises e eq_refl). eexists; reflexivity.
Qed.

Lemma search_envelope `{FSHDPDFProcessor} q n l env :
  KnowledgeBridge.search q n l = Ret env ->
  serializable q ->
  (forall results, search_fshd_knowledge q n l = Ret results ->
                   serializable results) ->
  serializable env /\ (is_success env \/ is_failure env).
Proof.
  intros Hs Hq Hser.
  destruct (search_returns_failure_or_try _ _ _ _ Hs)
    as [Ht | (e & _ & _ & ->)].
  - apply search_try_returns in Ht.
    destruct Ht as (results & documents & items & Hcall & _ & -> & _ & Hitems).
    split; [|now left].
    assert (Hall : serializable (PList items)).
    { apply serializable_list, Forall_forall. intros item Hin.
      apply In_nth_error in Hin. destruct Hin as [i Hi].
      eapply serializable_result_item; [|exact (Hitems i item Hi)].
      now apply Hser. }
    unfold serializable in *.
    rewrite !unserializable_binding. simpl (unserializable (PBool _)).
    simpl (unserializable (PInt _)). now rewrite Hq, Hall.
  - split; [|now right].
    unfold serializable, KnowledgeBridge.search_failed in *.
    rewrite !unserializable_binding. simpl. now rewrite Hq.
Qed.

Lemma stats_envelope `{FSHDPDFProcessor} env :
  KnowledgeBridge.stats = Ret env ->
  (forall r, get_collection_stats = Ret r -> serializable r) ->
  serializable env /\ (is_success env \/ is_failure env).
Proof.
  intros Hs Hser. apply try_except_Exception_Ret in Hs.
  destruct Hs as [Hs | (e & _ & _ & [= <-])].
  - bind_inv Hs as stats Hstats. injection Hs as <-.
    split; [|now left]. specialize (Hser _ Hstats).
    unfold serializable in *. rewrite !unserializable_binding. simpl.
    now rewrite Hser.
  - split; [reflexivity | now right].
Qed.

Lemma health_envelope `{FSHDPDFProcessor} env :
  KnowledgeBridge.health = Ret env ->
  (forall r, collection_count = Ret r -> serializable r) ->
  serializable env /\ (is_success env \/ is_failure env).
Proof.
  intros Hs Hser. apply try_except_Exception_Ret in Hs.
  destruct Hs as [Hs | (e & _ & _ & [= <-])].
  - bind_inv Hs as count Hcount. injection Hs as <-.
    split; [|now left]. specialize (Hser _ Hcount).
    unfold serializable in *. rewrite !unserializable_binding. simpl.
    now rewrite Hser.
  - split; [reflexivity | now right].
Qed.

(** ** Runs of the program *)

Lemma run_document_mode `{Interpreter} `{FSHDPDFProcessor} inv args result :
  argv_parse inv = Parsed args -> processor_init = Ret tt ->
  args_stdin args = true ->
  stdin_mode inv = Ret result -> serializable result ->
  run inv = printed result.
Proof.
  intros Hargs Hinit Hstdin Hresult Hser.
  unfold run, main, io_bind, parse_args, lift, KnowledgeBridge.init,
    json_dumps, write_stdout, io_ret.
  now rewrite Hargs, Hinit, Hstdin, Hresult, Hser.
Qed.

Lemma run_flag_mode `{Interpreter} `{FSHDPDFProcessor} inv args result :
  argv_parse inv = Parsed args -> processor_init = Ret tt ->
  args_stdin args = false ->
  flag_mode args = lift (Ret result) -> serializable result ->
  run inv = printed result.
Proof.
  intros Hargs Hinit Hstdin Hresult Hser.
  unfold run, main, io_bind, parse_args, io_ret, KnowledgeBridge.init.
  rewrite Hargs, Hinit, Hstdin, Hresult.
  unfold lift, json_dumps, write_stdout.
  now rewrite Hser.
Qed.

Lemma contains_suffix (prefix s : string) : contains (prefix ++ s) s.
Proof.
  exists prefix, "". f_equal.
  induction s as [|a s IH]; simpl; [reflexivity | now f_equal].
Qed.

Lemma eq_str_false (v : pyval) (s : string) :
  v <> PStr s -> eq_str v s = false.
Proof.
  intro Hne. destruct v; simpl; try reflexivity.
  destruct (String.eqb_spec s0 s) as [->|]; [now elim Hne | reflexivity].
Qed.

(** C4, as amended: in document mode, once the backend client handle is
    constructed, text on standard input that is not valid JSON makes the
    program print the failure envelope whose [error] describes the parse
    error, as its only output, and exit with status zero; nothing
    escapes and no usage help is printed. *)
Theorem malformed_json_failure_envelope
    (interp : Interpreter) (backend : FSHDPDFProcessor)
    (inv : Invocation) (args : Namespace) (e : pyexn) :
  argv_parse inv = Parsed args ->
  args_stdin args = true ->
  processor_init = Ret tt ->
  stdin_json inv = Raise e ->
  is_JSONDecodeError e = true ->
  run inv =
    {| output :=
         {| stdout := [Json (PDict [("success", PBool false);
                                     ("error", PStr ("JSON解析错误: "
                                                     ++ exn_str e))])];
            stderr := [] |};
       exit_status := 0;
       uncaught := None |}.
Proof.
  intros Hargs Hstdin Hinit Hload Hdecode.
  eapply run_document_mode; try eassumption; [|reflexivity].
  unfold stdin_mode, stdin_try, try_except_JSONDecodeError.
  rewrite Hload. simpl. now rewrite Hdecode.
Qed.

Lemma malformed_json_failure_envelope_witness :
  @run Samples.python Samples.collection_gone
     (Samples.document_invocation Samples.not_valid_json) =
    {| output :=
         {| stdout := [Json (PDict [("success", PBool false);
                                     ("error", PStr ("JSON解析错误: "
                                        ++ exn_str (mkExn JSONDecodeError
           "Expecting property name enclosed in double quotes: line 1 column 2 (char 1)")))])];
            stderr := [] |};
       exit_status := 0;
       uncaught := None |}.
Proof.
  apply (malformed_json_failure_envelope Samples.python
           Samples.collection_gone
           (Samples.document_invocation Samples.not_valid_json)
           Samples.with_stdin);
    reflexivity.
Defined.

(** C4 as worded fails: the handle is constructed before standard input
    is read, and with a constructor that raises the run ends in that
    exception, with nothing printed and exit status 1. *)
Lemma malformed_json_unreported_when_constructor_raises :
  ~ malformed_json_always_reported Samples.python Samples.cannot_start
      (Samples.document_invocation Samples.not_valid_json).
Proof.
  intro Hclaim.
  destruct (Hclaim _ _ eq_refl eq_refl eq_refl eq_refl) as (_ & Hstatus & _).
  discriminate Hstatus.
Qed.

(** C9 as worded fails: with a constructor that raises, the mapping
    [{"command": "bogus"}] is never read and no envelope is printed. *)
Lemma unknown_command_unreported_when_constructor_raises :
  ~ unknown_command_always_reported Samples.python Samples.cannot_start
      (Samples.document_invocation (Ret (PDict [("command", PStr "bogus")]))).
Proof.
  intro Hclaim.
  destruct (Hclaim Samples.with_stdin [("command", PStr "bogus")]
              (PStr "bogus") eq_refl eq_refl eq_refl eq_refl)
    as (env & error & Hout & _); try discriminate.
Qed.

(** Whatever the run, standard output gets at most one document. *)
Lemma at_most_one_document `{Interpreter} `{FSHDPDFProcessor} inv :
  (List.length (stdout (output (run inv))) <= 1)%nat.
Proof.
  unfold run, main, io_bind, parse_args, io_ret, lift, sys_exit,
    KnowledgeBridge.init, flag_mode, print_help, write_stdout, write_stderr.
  destruct (argv_parse inv) as [args| |]; simpl; try lia.
  destruct processor_init as [[]|e]; simpl.
  - destruct (args_stdin args).
    + destruct (stdin_mode inv) as [result|e]; simpl.
      * destruct (json_dumps result) as [text|e]; simpl; [lia|].
        destruct (exn_cls e); simpl; lia.
      * destruct (exn_cls e); simpl; lia.
    + destruct (command_is args "search").
      { destruct (KnowledgeBridge.search _ _ _) as [result|e]; simpl.
        - destruct (json_dumps result) as [text|e]; simpl; [lia|].
          destruct (exn_cls e); simpl; lia.
        - destruct (exn_cls e); simpl; lia. }
      destruct (command_is args "stats").
      { destruct KnowledgeBridge.stats as [result|e]; simpl.
        - destruct (json_dumps result) as [text|e]; simpl; [lia|].
          destruct (exn_cls e); simpl; lia.
        - destruct (exn_cls e); simpl; lia. }
      destruct (command_is args "health").
      { destruct KnowledgeBridge.health as [result|e]; simpl.
        - destruct (json_dumps result) as [text|e]; simpl; [lia|].
          destruct (exn_cls e); simpl; lia.
        - destruct (exn_cls e); simpl; lia. }
      simpl. lia.
  - destruct (exn_cls e); simpl; lia.
Qed.

(** C6, as amended: in flag mode with no recognised subcommand and
    without [--stdin], once the backend client handle is constructed,
    the program prints the usage text on standard output, writes nothing
    else, and exits with status 1; no JSON envelope is produced.  In
    every run standard output gets at most one document, so it never
    carries both the usage text and an envelope. *)
Theorem usage_on_standard_output
    (interp : Interpreter) (backend : FSHDPDFProcessor)
    (inv : Invocation) (args : Namespace) :
  argv_parse inv = Parsed args ->
  usage_case args ->
  processor_init = Ret tt ->
  run inv = {| output := {| stdout := [Help]; stderr := [] |};
               exit_status := 1;
               uncaught := None |} /\
  (forall env, ~ In (Json env) (stdout (output (run inv)))) /\
  (forall inv', (List.length (stdout (output (run inv'))) <= 1)%nat).
Proof.
  intros Hargs (Hstdin & Hsearch & Hstats & Hhealth) Hinit.
  assert (Hrun : run inv = {| output := {| stdout := [Help]; stderr := [] |};
                              exit_status := 1;
                              uncaught := None |}).
  { unfold run, main, io_bind, parse_args, io_ret, lift,
      KnowledgeBridge.init, flag_mode.
    now rewrite Hargs, Hinit, Hstdin, Hsearch, Hstats, Hhealth. }
  split; [exact Hrun|]. split.
  - intros env. rewrite Hrun. simpl. intros [Hin | []]. discriminate Hin.
  - intro inv'. apply at_most_one_document.
Qed.

Lemma usage_on_standard_output_witness :
  @run Samples.python (Samples.answering Samples.two_hits)
     (Samples.flag_invocation None) =
    {| output := {| stdout := [Help]; stderr := [] |};
       exit_status := 1;
       uncaught := None |} /\
  (forall env,
     ~ In (Json env)
         (stdout (output (@run Samples.python
                            (Samples.answering Samples.two_hits)
                            (Samples.flag_invocation None))))) /\
  (forall inv',
     (List.length (stdout (output (@run Samples.python
                                     (Samples.answering Samples.two_hits)
                                     inv'))) <= 1)%nat).
Proof.
  apply (usage_on_standard_output Samples.python
           (Samples.answering Samples.two_hits)
           (Samples.flag_invocation None) (Samples.flags None));
    try reflexivity.
  repeat split; reflexivity.
Defined.

(** C6 as worded fails: [parser.print_help()] writes to standard output,
    so the usage text is on the data channel and standard error stays
    empty. *)
Lemma usage_text_is_on_stdout :
  ~ usage_kept_off_stdout Samples.python (Samples.answering Samples.two_hits)
      (Samples.flag_invocation None).
Proof.
  intro Hclaim.
  destruct (Hclaim (Samples.flags None) eq_refl) as (Hout & _).
  - repeat split; reflexivity.
  - discriminate Hout.
Qed.

(** C10: in document mode, when standard input holds valid JSON whose
    top-level value is not a mapping, nothing is written to standard
    output and the run ends in an uncaught exception with a non-zero
    exit status; once the bridge is constructed, that exception is the
    [AttributeError] raised by reading [command] with [input_data.get]
    and the status is 1.  (Stated for backends whose constructor does
    not itself leave through [sys.exit].) *)
Theorem non_mapping_json_is_uncaught
    (interp : Interpreter) (backend : FSHDPDFProcessor)
    (inv : Invocation) (args : Namespace) (v : pyval) :
  argv_parse inv = Parsed args ->
  args_stdin args = true ->
  stdin_json inv = Ret v ->
  (forall d, v <> PDict d) ->
  (forall e status, processor_init = Raise e ->
                    exn_cls e <> SystemExit status) ->
  stdout (output (run inv)) = [] /\
  exit_status (run inv) <> 0%Z /\
  exists e,
    uncaught (run inv) = Some e /\
    (processor_init = Ret tt ->
     e = mkExn AttributeError
           ("'" ++ type_name v ++ "' object has no attribute 'get'") /\
     exit_status (run inv) = 1%Z).
Proof.
  intros Hargs Hstdin Hload Hshape Hctor.
  unfold run, main, io_bind, parse_args, io_ret, lift, KnowledgeBridge.init.
  rewrite Hargs.
  destruct processor_init as [[]|e0] eqn:Hinit.
  - rewrite Hstdin.
    assert (Hget : stdin_mode inv =
                   Raise (mkExn AttributeError
                            ("'" ++ type_name v
                                 ++ "' object has no attribute 'get'"))).
    { unfold stdin_mode, stdin_try. rewrite Hload.
      destruct v; try reflexivity. now elim (Hshape d). }
    rewrite Hget. simpl. repeat split; try discriminate.
    eexists. split; [reflexivity|]. auto.
  - specialize (Hctor e0).
    destruct (exn_cls e0) eqn:Hcls; simpl;
      try (repeat split; try discriminate;
           exists e0; split; [reflexivity | discriminate]).
    now elim (Hctor code).
Qed.

Lemma non_mapping_json_is_uncaught_witness :
  stdout (output (@run Samples.python (Samples.answering Samples.two_hits)
                    (Samples.document_invocation (Ret (PList []))))) = [] /\
  exit_status (@run Samples.python (Samples.answering Samples.two_hits)
                 (Samples.document_invocation (Ret (PList [])))) <> 0%Z /\
  exists e,
    uncaught (@run Samples.python (Samples.answering Samples.two_hits)
                (Samples.document_invocation (Ret (PList [])))) = Some e /\
    (@processor_init (Samples.answering Samples.two_hits) = Ret tt ->
     e = mkExn AttributeError
           ("'" ++ type_name (PList []) ++ "' object has no attribute 'get'") /\
     exit_status (@run Samples.python (Samples.answering Samples.two_hits)
                    (Samples.document_invocation (Ret (PList [])))) = 1%Z).
Proof.
  apply (non_mapping_json_is_uncaught Samples.python
           (Samples.answering Samples.two_hits)
           (Samples.document_invocation (Ret (PList [])))
           Samples.with_stdin (PList []));
    try reflexivity; discriminate.
Defined.

Lemma py_get_dict (d : list (string * pyval)) (key : string) (default : pyval) :
  py_get (PDict d) key default =
  Ret (match dict_lookup d key with
       | Some x => x
       | None => default
       end).
Proof. simpl. now destruct (dict_lookup d key). Qed.

(** Document mode on a mapping always comes back with an envelope. *)
Lemma stdin_mode_mapping `{Interpreter} `{backend : FSHDPDFProcessor} inv d :
  stdin_json inv = Ret (PDict d) -> serializable (PDict d) ->
  raises_only_Exception backend -> returns_serializable backend ->
  exists env,
    stdin_mode inv = Ret env /\ serializable env /\
    (is_success env \/ is_failure env).
Proof.
  intros Hload Hd (Rsearch & Rstats & Rcount) (Ssearch & Sstats & Scount).
  unfold stdin_mode, stdin_try. rewrite Hload. cbn [bind].
  rewrite py_get_dict. cbn [bind].
  set (command := match dict_lookup d "command" with
                  | Some x => x
                  | None => PStr "search"
                  end).
  destruct (eq_str command "search").
  { rewrite !py_get_dict. cbn [bind].
    set (q := match dict_lookup d "question" with
              | Some x => x
              | None => PStr ""
              end).
    set (n := match dict_lookup d "n_results" with
              | Some x => x
              | None => PInt 3
              end).
    set (l := match dict_lookup d "language" with
              | Some x => x
              | None => PNone
              end).
    destruct (search_returns q n l (Rsearch q n l)) as [env Henv].
    exists env. rewrite Henv. split; [reflexivity|].
    apply (search_envelope q n l env Henv).
    - eapply serializable_py_get;
        [exact Hd | | apply (py_get_dict d "question" (PStr ""))].
      reflexivity.
    - apply Ssearch. }
  destruct (eq_str command "stats").
  { destruct (stats_returns Rstats) as [env Henv].
    exists env. rewrite Henv. split; [reflexivity|].
    now apply stats_envelope. }
  destruct (eq_str command "health").
  { destruct (health_returns Rcount) as [env Henv].
    exists env. rewrite Henv. split; [reflexivity|].
    now apply health_envelope. }
  eexists. split; [reflexivity|]. split; [reflexivity | now right].
Qed.

(** Flag mode with a recognised subcommand comes back with an envelope. *)
Lemma flag_mode_recognised `{Interpreter} `{backend : FSHDPDFProcessor} args :
  args_stdin args = false -> ~ usage_case args ->
  raises_only_Exception backend -> returns_serializable backend ->
  exists env,
    flag_mode args = lift (Ret env) /\ serializable env /\
    (is_success env \/ is_failure env).
Proof.
  intros Hstdin Hnot (Rsearch & Rstats & Rcount) (Ssearch & Sstats & Scount).
  unfold flag_mode.
  destruct (command_is args "search") eqn:Esearch.
  { destruct (search_returns _ _ _
                (Rsearch (PStr (args_question args))
                   (PInt (args_n_results args))
                   (option_str (args_language args)))) as [env Henv].
    exists env. rewrite Henv. split; [reflexivity|].
    apply (search_envelope _ _ _ env Henv); [reflexivity | apply Ssearch]. }
  destruct (command_is args "stats") eqn:Estats.
  { destruct (stats_returns Rstats) as [env Henv].
    exists env. rewrite Henv. split; [reflexivity|].
    now apply stats_envelope. }
  destruct (command_is args "health") eqn:Ehealth.
  { destruct (health_returns Rcount) as [env Henv].
    exists env. rewrite Henv. split; [reflexivity|].
    now apply health_envelope. }
  elim Hnot. repeat split; assumption.
Qed.

(** C1 as worded fails: the handle is constructed outside every [try],
    so a constructor that raises ends [health] with that exception
    escaping and nothing on standard output. *)
Lemma constructor_failure_escapes :
  ~ one_envelope_always Samples.python Samples.cannot_start
      (Samples.flag_invocation (Some "health")).
Proof.
  intro Hclaim.
  destruct (Hclaim (Samples.flags (Some "health")) eq_refl) as (_ & Hnone).
  - intros (_ & _ & _ & Hhealth). discriminate Hhealth.
  - discriminate Hnone.
Qed.

(** * Further properties of the bridge *)

(** ** [search]: from the backend's columns to the envelope *)

Lemma field_getitem_str (v : pyval) (key : string) (x : pyval) :
  field v key = Some x -> getitem_str v key = Ret x.
Proof.
  destruct v; simpl; try discriminate. now intros ->.
Qed.

(** The loop returns as soon as every turn does. *)
Lemma loop_returns `{FSHDPDFProcessor} (results : pyval) :
  forall n start appended,
    (forall i, (i < n)%nat ->
       exists item, KnowledgeBridge.result_item results (start + i) = Ret item) ->
    exists out,
      for_each (seq start n)
        (fun i acc =>
           item <- KnowledgeBridge.result_item results i ;;
           Ret (acc ++ [item])%list)
        appended = Ret out.
Proof.
  induction n as [|n IH]; intros start appended Hturns; simpl.
  - eexists; reflexivity.
  - destruct (Hturns 0%nat ltac:(lia)) as [item Hitem].
    rewrite Nat.add_0_r in Hitem. rewrite Hitem. cbn [bind].
    apply IH. intros i Hi.
    destruct (Hturns (S i) ltac:(lia)) as [item' Hitem'].
    exists item'. now rewrite Nat.add_succ_r in Hitem'.
Qed.

(** The [try] body of [search] once the backend has returned and the
    documents column is missing or its first sequence is empty. *)
Lemma search_try_no_documents `{FSHDPDFProcessor} q n l results documents :
  search_fshd_knowledge q n l = Ret results ->
  field results "documents" = Some documents ->
  (truthy documents = false \/
   exists first, getitem_idx documents 0 = Ret first /\ py_len first = Ret 0%nat) ->
  KnowledgeBridge.search_try q n l =
    Ret (PDict [("success", PBool true);
                ("question", q);
                ("total_results", PInt 0);
                ("results", PList [])]).
Proof.
  intros Hcall Hdocs Hempty. apply field_getitem_str in Hdocs.
  unfold KnowledgeBridge.search_try, KnowledgeBridge.len_documents0.
  rewrite Hcall. cbn [bind].
  destruct Hempty as [Hfalsy | (first & Hfirst & Hlen)].
  - repeat (progress (rewrite ?Hdocs, ?Hfalsy; cbn [bind])). reflexivity.
  - destruct (truthy documents) eqn:Htruthy.
    + repeat (progress (rewrite ?Hdocs, ?Htruthy, ?Hfirst, ?Hlen; cbn [bind])).
      reflexivity.
    + repeat (progress (rewrite ?Hdocs, ?Htruthy; cbn [bind])). reflexivity.
Qed.

(** The [try] body of [search] once the backend has returned a
    non-empty first documents sequence: the loop decides. *)
Lemma search_try_loop `{FSHDPDFProcessor} q n l results documents first k :
  search_fshd_knowledge q n l = Ret results ->
  field results "documents" = Some documents ->
  truthy documents = true ->
  getitem_idx documents 0 = Ret first ->
  py_len first = Ret (S k) ->
  KnowledgeBridge.search_try q n l =
    (formatted_results <-
       for_each (seq 0 (S k))
         (fun i acc =>
            item <- KnowledgeBridge.result_item results i ;;
            Ret (acc ++ [item])%list)
         [] ;;
     Ret (PDict [("success", PBool true);
                 ("question", q);
                 ("total_results", PInt (Z.of_nat (S k)));
                 ("results", PList formatted_results)])).
Proof.
  intros Hcall Hdocs Htruthy Hfirst Hlen. apply field_getitem_str in Hdocs.
  unfold KnowledgeBridge.search_try, KnowledgeBridge.len_documents0.
  rewrite Hcall. cbn [bind].
  repeat (progress (rewrite ?Hdocs, ?Htruthy, ?Hfirst, ?Hlen; cbn [bind])).
  reflexivity.
Qed.

(** When the first turn of the loop raises, so does the [try] body. *)
Lemma search_try_first_turn_raises `{FSHDPDFProcessor}
    q n l results documents first k e :
  search_fshd_knowledge q n l = Ret results ->
  field results "documents" = Some documents ->
  truthy documents = true ->
  getitem_idx documents 0 = Ret first ->
  py_len first = Ret (S k) ->
  KnowledgeBridge.result_item results 0 = Raise e ->
  KnowledgeBridge.search_try q n l = Raise e.
Proof.
  intros Hcall Hdocs Htruthy Hfirst Hlen Hturn.
  rewrite (search_try_loop _ _ _ _ _ _ _ Hcall Hdocs Htruthy Hfirst Hlen).
  simpl. now rewrite Hturn.
Qed.

Lemma search_of_try `{FSHDPDFProcessor} q n l env :
  KnowledgeBridge.search_try q n l = Ret env ->
  KnowledgeBridge.search q n l = Ret env.
Proof.
  intro Ht. unfold KnowledgeBridge.search. now rewrite Ht.
Qed.

(** No match is a success, and the other columns are not looked at:
    when the documents column the backend returned is [None] or empty,
    or its first sequence is empty, [search] answers the success
    envelope with no result and [total_results] 0, whatever the ids,
    metadatas and distances are, even when their keys are not there. *)
Theorem search_no_match_is_success
    (backend : FSHDPDFProcessor) (q n l results documents : pyval) :
  search_fshd_knowledge q n l = Ret results ->
  field results "documents" = Some documents ->
  (truthy documents = false \/
   exists first, getitem_idx documents 0 = Ret first /\ py_len first = Ret 0%nat) ->
  KnowledgeBridge.search q n l =
    Ret (PDict [("success", PBool true);
                ("question", q);
                ("total_results", PInt 0);
                ("results", PList [])]).
Proof.
  intros Hcall Hdocs Hempty.
  apply search_of_try. eapply search_try_no_documents; eassumption.
Qed.

Lemma search_no_match_is_success_witness :
  @KnowledgeBridge.search
     (Samples.answering (PDict [("documents", PList [PList []])]))
     (PStr "What is FSHD?") (PInt 3) PNone =
    Ret (PDict [("success", PBool true);
                ("question", PStr "What is FSHD?");
                ("total_results", PInt 0);
                ("results", PList [])]).
Proof.
  apply (search_no_match_is_success
           (Samples.answering (PDict [("documents", PList [PList []])]))
           (PStr "What is FSHD?") (PInt 3) PNone
           (PDict [("documents", PList [PList []])]) (PList [PList []])).
  - reflexivity.
  - reflexivity.
  - right. exists (PList []). split; reflexivity.
Defined.

(** A key that is not there is not a column that carries nothing: when
    the backend's result is a dict without the [documents] key, or with
    documents to report but without the [ids] key, or (the ids being
    fine for the first item) without the [metadatas] key, [search]
    answers the failure envelope whose [error] is the key in quotes; no
    placeholder is made up. *)
Theorem search_missing_key_is_failure
    (backend : FSHDPDFProcessor) (q n l : pyval) (d : list (string * pyval)) :
  search_fshd_knowledge q n l = Ret (PDict d) ->
  (dict_lookup d "documents" = None ->
   KnowledgeBridge.search q n l =
     Ret (PDict [("success", PBool false);
                 ("error", PStr "'documents'");
                 ("question", q)])) /\
  (forall doc docs rest,
     dict_lookup d "documents" = Some (PList (PList (doc :: docs) :: rest)) ->
     dict_lookup d "ids" = None ->
     KnowledgeBridge.search q n l =
       Ret (PDict [("success", PBool false);
                   ("error", PStr "'ids'");
                   ("question", q)])) /\
  (forall doc docs rest ids,
     dict_lookup d "documents" = Some (PList (PList (doc :: docs) :: rest)) ->
     dict_lookup d "ids" = Some ids ->
     (truthy ids = false \/ exists id, entry ids 0 = Ret id) ->
     dict_lookup d "metadatas" = None ->
     KnowledgeBridge.search q n l =
       Ret (PDict [("success", PBool false);
                   ("error", PStr "'metadatas'");
                   ("question", q)])).
Proof.
  intro Hcall. split; [|split].
  - intro Hnone.
    apply (search_catches q n l (mkExn KeyError "'documents'")); [|reflexivity].
    unfold KnowledgeBridge.search_try. rewrite Hcall. simpl.
    now rewrite Hnone.
  - intros doc docs rest Hdocs Hnone.
    apply (search_catches q n l (mkExn KeyError "'ids'")); [|reflexivity].
    eapply (search_try_first_turn_raises q n l (PDict d) _ (PList (doc :: docs))
              (List.length docs));
      [exact Hcall | exact Hdocs | reflexivity | reflexivity | reflexivity |].
    unfold KnowledgeBridge.result_item. simpl. now rewrite Hnone.
  - intros doc docs rest ids Hdocs Hids Hfirst Hnone.
    apply (search_catches q n l (mkExn KeyError "'metadatas'")); [|reflexivity].
    eapply (search_try_first_turn_raises q n l (PDict d) _ (PList (doc :: docs))
              (List.length docs));
      [exact Hcall | exact Hdocs | reflexivity | reflexivity | reflexivity |].
    unfold KnowledgeBridge.result_item.
    rewrite (field_getitem_str (PDict d) "ids" ids Hids). cbn [bind].
    assert (Hid : exists id,
              (if truthy ids
               then (ids0 <- getitem_idx ids 0 ;; getitem_idx ids0 0)
               else Ret (PStr ("result_" ++ str_of_nat 0))) = Ret id).
    { destruct Hfirst as [Hfalsy | (id & Hid)].
      - rewrite Hfalsy. eexists; reflexivity.
      - destruct (truthy ids); [exists id; exact Hid | eexists; reflexivity]. }
    destruct Hid as (id & Hid). rewrite Hid. cbn [bind].
    simpl. rewrite Hdocs. simpl. now rewrite Hnone.
Qed.

Lemma search_missing_key_is_failure_witness :
  @KnowledgeBridge.search
     (Samples.answering (PDict [("documents", PList [PList [PStr "DUX4"]])]))
     (PStr "What is FSHD?") (PInt 3) PNone =
    Ret (PDict [("success", PBool false);
                ("error", PStr "'ids'");
                ("question", PStr "What is FSHD?")]).
Proof.
  apply (proj1 (proj2 (search_missing_key_is_failure
           (Samples.answering (PDict [("documents", PList [PList [PStr "DUX4"]])]))
           (PStr "What is FSHD?") (PInt 3) PNone
           [("documents", PList [PList [PStr "DUX4"]])] eq_refl))
           (PStr "DUX4") [] []);
    reflexivity.
Defined.

Lemma column_short_entry (column : pyval) (n : nat) :
  column_short column n ->
  truthy column = true /\
  exists i, (i < n)%nat /\ forall v, entry column i <> Ret v.
Proof.
  intros (xs & rest & -> & Hlen). split; [reflexivity|].
  exists (List.length xs). split; [exact Hlen|].
  intros v Hentry. apply entry_of_lists in Hentry.
  assert (Hsome : nth_error xs (List.length xs) <> None) by congruence.
  apply nth_error_Some in Hsome. lia.
Qed.

(** There is no partial result: when the ids, the metadatas or the
    distances the backend returned have a first sequence shorter than
    the first documents sequence, [search] does not fill the gap and
    does not keep the items it could build; it answers a failure
    envelope carrying the text of the exception it met. *)
Theorem search_short_column_is_failure
    (backend : FSHDPDFProcessor) (q n l results : pyval)
    (docs rest : list pyval) (name : string) (column : pyval) :
  search_fshd_knowledge q n l = Ret results ->
  field results "documents" = Some (PList (PList docs :: rest)) ->
  name = "ids" \/ name = "metadatas" \/ name = "distances" ->
  field results name = Some column ->
  column_short column (List.length docs) ->
  exists e,
    is_Exception e = true /\
    KnowledgeBridge.search_try q n l = Raise e /\
    KnowledgeBridge.search q n l =
      Ret (PDict [("success", PBool false);
                  ("error", PStr (exn_str e));
                  ("question", q)]).
Proof.
  intros Hcall Hdocs Hname Hcolumn Hshort.
  destruct (KnowledgeBridge.search_try q n l) as [env|e] eqn:Ht.
  - (* a success would have needed the entry that is not there *)
    exfalso.
    apply search_try_returns in Ht.
    destruct Ht as (results' & documents & items & Hcall' & Hdocs' & _ & Hlen & Hitems).
    rewrite Hcall in Hcall'. injection Hcall' as <-.
    rewrite Hdocs in Hdocs'. injection Hdocs' as <-.
    simpl in Hlen. destruct Hlen as (first & [= <-] & [= Hlen]).
    destruct (column_short_entry _ _ Hshort) as (Htruthy & i & Hi & Hnone).
    destruct (nth_error items i) as [item|] eqn:Hitem;
      [|apply nth_error_None in Hitem; lia].
    apply Hitems, result_item_returns in Hitem.
    destruct Hitem as (id & content & metadata & distance & _ & Hid & Hmd & _ & Hdist).
    destruct Hname as [-> | [-> | ->]].
    + destruct Hid as [(c & Hc & _ & Hentry) | ((c & Hc & Hfalsy) & _)];
        rewrite Hcolumn in Hc; injection Hc as <-.
      * now apply (Hnone id).
      * congruence.
    + destruct Hmd as [(c & Hc & _ & Hentry) | ((c & Hc & Hfalsy) & _)];
        rewrite Hcolumn in Hc; injection Hc as <-.
      * now apply (Hnone metadata).
      * congruence.
    + specialize (Hdist column Hcolumn). rewrite Htruthy in Hdist.
      now apply (Hnone distance).
  - assert (He : is_Exception e = true)
      by (eapply conversion_raises_Exception; eassumption).
    exists e. split; [exact He|]. split; [reflexivity|].
    now apply search_catches.
Qed.

Lemma search_short_column_is_failure_witness :
  exists e,
    is_Exception e = true /\
    @KnowledgeBridge.search_try (Samples.answering Samples.ragged_hits)
       (PStr "What is FSHD?") (PInt 3) PNone = Raise e /\
    @KnowledgeBridge.search (Samples.answering Samples.ragged_hits)
       (PStr "What is FSHD?") (PInt 3) PNone =
      Ret (PDict [("success", PBool false);
                  ("error", PStr (exn_str e));
                  ("question", PStr "What is FSHD?")]).
Proof.
  apply (search_short_column_is_failure
           (Samples.answering Samples.ragged_hits)
           (PStr "What is FSHD?") (PInt 3) PNone Samples.ragged_hits
           [PStr "FSHD is inherited"; PStr "DUX4"] [] "ids"
           (PList [PList [PStr "doc1_chunk0"]])).
  - reflexivity.
  - reflexivity.
  - left; reflexivity.
  - reflexivity.
  - exists [PStr "doc1_chunk0"], []. split; [reflexivity | simpl; lia].
Defined.

(** The content of an item and the four fields it is made of. *)
Lemma result_item_content `{FSHDPDFProcessor} results i item :
  KnowledgeBridge.result_item results i = Ret item ->
  exists documents id content metadata distance,
    field results "documents" = Some documents /\
    entry documents i = Ret content /\
    item = PDict [("id", id); ("content", content);
                  ("metadata", metadata); ("distance", distance)].
Proof.
  unfold KnowledgeBridge.result_item. intro Hi.
  bind_inv Hi as ids Hids. bind_inv Hi as id Hid.
  bind_inv Hi as documents Hdocs. bind_inv Hi as documents0 Hdocs0.
  bind_inv Hi as content Hcontent.
  bind_inv Hi as metadatas Hmds. bind_inv Hi as metadata Hmd.
  bind_inv Hi as got Hgot. bind_inv Hi as distance Hdist.
  injection Hi as <-.
  exists documents, id, content, metadata, distance.
  split; [now apply getitem_str_field|]. split; [|reflexivity].
  unfold entry. now rewrite Hdocs0.
Qed.

(** The items follow the backend's ranking: in a success envelope of
    [search] the [content] fields of [results], read in order, are the
    documents of the backend's first sequence in the backend's order,
    and every item is made of exactly the four fields [id], [content],
    [metadata], [distance]. *)
Theorem search_contents_in_backend_order
    (backend : FSHDPDFProcessor) (q n l env results : pyval)
    (items docs rest : list pyval) :
  KnowledgeBridge.search q n l = Ret env ->
  is_success env ->
  field env "results" = Some (PList items) ->
  search_fshd_knowledge q n l = Ret results ->
  field results "documents" = Some (PList (PList docs :: rest)) ->
  map (fun item => field item "content") items = map Some docs /\
  Forall (fun item =>
            exists id content metadata distance,
              item = PDict [("id", id); ("content", content);
                            ("metadata", metadata); ("distance", distance)])
         items.
Proof.
  intros Hs Hok Hres Hcall Hdocs.
  apply search_success_try in Hs; [|exact Hok].
  apply search_try_returns in Hs.
  destruct Hs as (results' & documents & items' & Hcall' & Hdocs' & -> & Hlen & Hitems).
  simpl in Hres. injection Hres as ->.
  rewrite Hcall in Hcall'. injection Hcall' as <-.
  rewrite Hdocs in Hdocs'. injection Hdocs' as <-.
  simpl in Hlen. destruct Hlen as (first & [= <-] & [= Hlen]).
  split.
  - apply nth_error_ext. intro i. rewrite !nth_error_map.
    destruct (nth_error items i) as [item|] eqn:Hitem.
    + apply Hitems, result_item_content in Hitem.
      destruct Hitem as (documents & id & content & metadata & distance
                         & Hd & Hentry & ->).
      rewrite Hdocs in Hd. injection Hd as <-.
      apply entry_of_lists in Hentry. now rewrite Hentry.
    + apply nth_error_None in Hitem.
      assert (Hnone : nth_error docs i = None) by (apply nth_error_None; lia).
      now rewrite Hnone.
  - apply Forall_forall. intros item Hin.
    apply In_nth_error in Hin. destruct Hin as [i Hitem].
    apply Hitems, result_item_content in Hitem.
    destruct Hitem as (_ & id & content & metadata & distance & _ & _ & ->).
    exists id, content, metadata, distance. reflexivity.
Qed.

Lemma search_contents_in_backend_order_witness :
  map (fun item => field item "content")
      [PDict [("id", PStr "result_0"); ("content", PStr "FSHD is inherited");
              ("metadata", PDict []); ("distance", PNone)];
       PDict [("id", PStr "result_1"); ("content", PStr "DUX4");
              ("metadata", PDict []); ("distance", PNone)]]
    = map Some [PStr "FSHD is inherited"; PStr "DUX4"] /\
  Forall (fun item =>
            exists id content metadata distance,
              item = PDict [("id", id); ("content", content);
                            ("metadata", metadata); ("distance", distance)])
    [PDict [("id", PStr "result_0"); ("content", PStr "FSHD is inherited");
            ("metadata", PDict []); ("distance", PNone)];
     PDict [("id", PStr "result_1"); ("content", PStr "DUX4");
            ("metadata", PDict []); ("distance", PNone)]].
Proof.
  eapply (search_contents_in_backend_order
            (Samples.answering Samples.bare_hits)
            (PStr "What is FSHD?") (PInt 2) PNone _ Samples.bare_hits
            _ _ []);
    reflexivity.
Defined.

Lemma column_covers_entry (column : pyval) (n i : nat) :
  column_covers column n -> (i < n)%nat ->
  forall (placeholder : pyval),
  exists v,
    (if truthy column
     then (first <- getitem_idx column 0 ;; getitem_idx first i)
     else Ret placeholder) = Ret v.
Proof.
  intros [Hfalsy | (xs & rest & -> & Hlen)] Hi placeholder.
  - rewrite Hfalsy. eexists; reflexivity.
  - simpl. destruct (nth_error xs i) as [v|] eqn:Hv.
    + exists v; reflexivity.
    + apply nth_error_None in Hv. lia.
Qed.

(** Columns that fit always give a success: when the backend returns a
    dict whose first documents sequence has [k] entries, whose ids and
    metadatas are [None], empty, or have at least [k] entries in their
    first sequence, and whose distances are absent or likewise, [search]
    answers a success envelope with [k] items. *)
Theorem search_fitting_columns_is_success
    (backend : FSHDPDFProcessor) (q n l : pyval) (d : list (string * pyval))
    (docs rest : list pyval) (ids metadatas : pyval) :
  search_fshd_knowledge q n l = Ret (PDict d) ->
  dict_lookup d "documents" = Some (PList (PList docs :: rest)) ->
  dict_lookup d "ids" = Some ids ->
  column_covers ids (List.length docs) ->
  dict_lookup d "metadatas" = Some metadatas ->
  column_covers metadatas (List.length docs) ->
  column_covers (get_or d "distances" PNone) (List.length docs) ->
  exists items,
    List.length items = List.length docs /\
    KnowledgeBridge.search q n l =
      Ret (PDict [("success", PBool true);
                  ("question", q);
                  ("total_results", PInt (Z.of_nat (List.length docs)));
                  ("results", PList items)]).
Proof.
  intros Hcall Hdocs Hids Cids Hmds Cmds Cdist.
  destruct docs as [|doc docs].
  - exists []. split; [reflexivity|].
    apply search_of_try.
    eapply (search_try_no_documents q n l (PDict d)); try eassumption.
    right. exists (PList []). split; reflexivity.
  - assert (Hturns : forall i, (i < S (List.length docs))%nat ->
              exists item,
                KnowledgeBridge.result_item (PDict d) (0 + i) = Ret item).
    { intros i Hi. change (0 + i)%nat with i.
      unfold KnowledgeBridge.result_item. simpl getitem_str.
      rewrite Hids, Hdocs, Hmds. cbn [bind].
      destruct (column_covers_entry ids _ i Cids Hi
                  (PStr ("result_" ++ str_of_nat i))) as (id & ->).
      cbn [bind]. simpl getitem_idx.
      destruct (nth_error (doc :: docs) i) as [content|] eqn:Hcontent;
        [|apply nth_error_None in Hcontent; simpl in Hcontent; lia].
      cbn [bind].
      destruct (column_covers_entry metadatas _ i Cmds Hi (PDict []))
        as (metadata & ->).
      cbn [bind]. rewrite py_get_dict. cbn [bind].
      fold (get_or d "distances" PNone).
      destruct (column_covers_entry (get_or d "distances" PNone) _ i Cdist Hi
                  PNone) as (distance & Hdistance).
      assert (Hdist : (if truthy (get_or d "distances" PNone)
                       then (distances <- match dict_lookup d "distances" with
                                          | Some x => Ret x
                                          | None => Raise (mkExn KeyError "'distances'")
                                          end ;;
                             distances0 <- getitem_idx distances 0 ;;
                             getitem_idx distances0 i)
                       else Ret PNone) = Ret distance).
      { unfold get_or in *.
        destruct (dict_lookup d "distances") as [column|]; exact Hdistance. }
      rewrite Hdist. cbn [bind].
      assert (Hc : getitem_idx (PList (doc :: docs)) i = Ret content)
        by (unfold getitem_idx; now rewrite Hcontent).
      rewrite Hc. cbn [bind]. eexists; reflexivity. }
    destruct (loop_returns (PDict d) _ 0%nat [] Hturns) as (out & Hloop).
    pose proof (loop_appends (PDict d) _ _ _ _ Hloop) as (items & -> & Hlen & _).
    exists items. split; [exact Hlen|].
    apply search_of_try.
    rewrite (search_try_loop q n l (PDict d) (PList (PList (doc :: docs) :: rest))
               (PList (doc :: docs)) (List.length docs)
               Hcall Hdocs eq_refl eq_refl eq_refl).
    rewrite Hloop. reflexivity.
Qed.

Lemma search_fitting_columns_is_success_witness :
  exists items,
    List.length items = 2%nat /\
    @KnowledgeBridge.search (Samples.answering Samples.bare_hits)
       (PStr "What is FSHD?") (PInt 2) PNone =
      Ret (PDict [("success", PBool true);
                  ("question", PStr "What is FSHD?");
                  ("total_results", PInt 2);
                  ("results", PList items)]).
Proof.
  apply (search_fitting_columns_is_success
           (Samples.answering Samples.bare_hits)
           (PStr "What is FSHD?") (PInt 2) PNone
           [("ids", PNone);
            ("documents", PList [PList [PStr "FSHD is inherited"; PStr "DUX4"]]);
            ("metadatas", PNone)]
           [PStr "FSHD is inherited"; PStr "DUX4"] [] PNone PNone);
    try reflexivity; left; reflexivity.
Defined.

(** ** [stats] *)

(** [stats] hands the backend's statistics through untouched: what sits
    under [stats] in its answer is exactly what the backend returned,
    of whatever shape; a failure envelope carries the text of the
    exception the backend raised and nothing else, and comes from
    nowhere else. *)
Theorem stats_passes_through (backend : FSHDPDFProcessor) (env : pyval) :
  KnowledgeBridge.stats = Ret env ->
  (exists payload,
     get_collection_stats = Ret payload /\
     env = PDict [("success", PBool true); ("stats", payload)]) \/
  (exists e,
     get_collection_stats = Raise e /\ is_Exception e = true /\
     env = PDict [("success", PBool false); ("error", PStr (exn_str e))]).
Proof.
  intro Hs. apply try_except_Exception_Ret in Hs.
  destruct Hs as [Hs | (e & Hbody & He & [= <-])].
  - left. bind_inv Hs as payload Hpayload. injection Hs as <-.
    exists payload. auto.
  - right. exists e. split; [|auto].
    destruct get_collection_stats as [payload|e']; [discriminate|].
    exact Hbody.
Qed.

Lemma stats_passes_through_witness :
  (exists payload,
     @get_collection_stats (Samples.answering Samples.two_hits) = Ret payload /\
     PDict [("success", PBool true);
            ("stats", PDict [("total_chunks", PInt 42)])] =
     PDict [("success", PBool true); ("stats", payload)]) \/
  (exists e,
     @get_collection_stats (Samples.answering Samples.two_hits) = Raise e /\
     is_Exception e = true /\
     PDict [("success", PBool true);
            ("stats", PDict [("total_chunks", PInt 42)])] =
     PDict [("success", PBool false); ("error", PStr (exn_str e))]).
Proof.
  apply (stats_passes_through (Samples.answering Samples.two_hits)).
  reflexivity.
Defined.

(** ** What gets past [except Exception] *)

Lemma try_except_Exception_raises {A : Type} (body : outcome A)
    (handler : pyexn -> outcome A) (e : pyexn) :
  (forall e', exists a, handler e' = Ret a) ->
  try_except_Exception body handler = Raise e ->
  body = Raise e /\ is_Exception e = false.
Proof.
  intros Hh Ht. split; [|eapply try_except_Exception_Raise; eassumption].
  unfold try_except_Exception in Ht.
  destruct body as [a|e0]; [discriminate|].
  destruct (is_Exception e0).
  - destruct (Hh e0) as [a Ha]. rewrite Ha in Ht. discriminate.
  - exact Ht.
Qed.

Lemma search_raises `{FSHDPDFProcessor} q n l e :
  KnowledgeBridge.search q n l = Raise e ->
  search_fshd_knowledge q n l = Raise e /\ is_Exception e = false.
Proof.
  intro Hs. apply try_except_Exception_raises in Hs;
    [|intro; eexists; reflexivity].
  destruct Hs as (Ht & He). split; [|exact He].
  destruct (search_fshd_knowledge q n l) as [results|e'] eqn:Hcall.
  - rewrite (conversion_raises_Exception _ _ _ _ _ Hcall Ht) in He.
    discriminate.
  - unfold KnowledgeBridge.search_try in Ht. rewrite Hcall in Ht. exact Ht.
Qed.

Lemma stats_raises `{FSHDPDFProcessor} e :
  KnowledgeBridge.stats = Raise e ->
  get_collection_stats = Raise e /\ is_Exception e = false.
Proof.
  intro Hs. apply try_except_Exception_raises in Hs;
    [|intro; eexists; reflexivity].
  destruct Hs as (Ht & He). split; [|exact He].
  destruct get_collection_stats; [discriminate | exact Ht].
Qed.

Lemma health_raises `{FSHDPDFProcessor} e :
  KnowledgeBridge.health = Raise e ->
  collection_count = Raise e /\ is_Exception e = false.
Proof.
  intro Hs. apply try_except_Exception_raises in Hs;
    [|intro; eexists; reflexivity].
  destruct Hs as (Ht & He). split; [|exact He].
  destruct collection_count; [discriminate | exact Ht].
Qed.

(** The three operations raise exactly what the backend call raised
    outside [Exception] ([KeyboardInterrupt], [SystemExit]): such an
    exception is not turned into an envelope, and nothing else ever
    leaves an operation, not even what converting a malformed result
    raises. *)
Theorem operations_raise_only_base_exceptions
    (backend : FSHDPDFProcessor) (e : pyexn) :
  (forall q n l,
     KnowledgeBridge.search q n l = Raise e <->
     search_fshd_knowledge q n l = Raise e /\ is_Exception e = false) /\
  (KnowledgeBridge.stats = Raise e <->
   get_collection_stats = Raise e /\ is_Exception e = false) /\
  (KnowledgeBridge.health = Raise e <->
   collection_count = Raise e /\ is_Exception e = false).
Proof.
  split; [|split].
  - intros q n l. split; [apply search_raises|].
    intros (Hcall & He).
    unfold KnowledgeBridge.search, KnowledgeBridge.search_try,
      try_except_Exception.
    rewrite Hcall. simpl. now rewrite He.
  - split; [apply stats_raises|].
    intros (Hcall & He).
    unfold KnowledgeBridge.stats, try_except_Exception.
    rewrite Hcall. simpl. now rewrite He.
  - split; [apply health_raises|].
    intros (Hcall & He).
    unfold KnowledgeBridge.health, try_except_Exception.
    rewrite Hcall. simpl. now rewrite He.
Qed.

Lemma operations_raise_only_base_exceptions_witness :
  @KnowledgeBridge.search MoreSamples.interrupted (PStr "What is FSHD?") (PInt 3) PNone
    = Raise (mkExn KeyboardInterrupt "").
Proof.
  apply (proj1 (operations_raise_only_base_exceptions MoreSamples.interrupted
                  (mkExn KeyboardInterrupt ""))).
  split; reflexivity.
Defined.

(** ** [main]: the two modes *)

Lemma JSONDecodeError_is_Exception (e : pyexn) :
  is_JSONDecodeError e = true -> is_Exception e = true.
Proof.
  unfold is_JSONDecodeError, is_Exception. now destruct (exn_cls e).
Qed.

(** [except json.JSONDecodeError] lets through a call that raises
    nothing inside [Exception]. *)
Lemma try_except_JSONDecodeError_transparent {A : Type} (body : outcome A)
    (handler : pyexn -> outcome A) :
  (forall e, body = Raise e -> is_Exception e = false) ->
  try_except_JSONDecodeError body handler = body.
Proof.
  intro Hbody. unfold try_except_JSONDecodeError.
  destruct body as [a|e]; [reflexivity|].
  destruct (is_JSONDecodeError e) eqn:Hd; [|reflexivity].
  apply JSONDecodeError_is_Exception in Hd.
  rewrite (Hbody e eq_refl) in Hd. discriminate.
Qed.

Lemma stdin_try_mapping `{Interpreter} `{FSHDPDFProcessor} inv d :
  stdin_json inv = Ret (PDict d) ->
  stdin_try inv =
    (let command := get_or d "command" (PStr "search") in
     if eq_str command "search" then
       KnowledgeBridge.search (get_or d "question" (PStr ""))
         (get_or d "n_results" (PInt 3)) (get_or d "language" PNone)
     else if eq_str command "stats" then KnowledgeBridge.stats
     else if eq_str command "health" then KnowledgeBridge.health
     else Ret (PDict [("success", PBool false);
                      ("error", PStr ("未知命令: " ++ py_str command))])).
Proof.
  intro Hload. unfold stdin_try. rewrite Hload. cbn [bind].
  rewrite py_get_dict. cbn [bind]. fold (get_or d "command" (PStr "search")).
  cbv zeta. destruct (eq_str (get_or d "command" (PStr "search")) "search");
    [|reflexivity].
  rewrite !py_get_dict. reflexivity.
Qed.

Lemma stdin_mode_search `{Interpreter} `{FSHDPDFProcessor} inv d :
  stdin_json inv = Ret (PDict d) ->
  get_or d "command" (PStr "search") = PStr "search" ->
  stdin_mode inv =
    KnowledgeBridge.search (get_or d "question" (PStr ""))
      (get_or d "n_results" (PInt 3)) (get_or d "language" PNone).
Proof.
  intros Hload Hcommand. unfold stdin_mode.
  rewrite (stdin_try_mapping inv d Hload). cbv zeta. rewrite Hcommand.
  simpl eq_str. cbv iota.
  apply try_except_JSONDecodeError_transparent.
  intros e He. now apply search_raises in He.
Qed.

(** The two modes agree on [search]: a mapping on standard input whose
    [command] is [search] or is not there, read with the defaults of
    document mode (question [""], 3 results, no language), makes the
    whole run end exactly as the [search] subcommand does with the same
    question, result-count and language on the command line. *)
Theorem document_search_matches_flag_search
    (interp : Interpreter) (backend : FSHDPDFProcessor)
    (by_document by_flags : Invocation) (a_document a_flags : Namespace)
    (d : list (string * pyval)) :
  argv_parse by_document = Parsed a_document ->
  args_stdin a_document = true ->
  stdin_json by_document = Ret (PDict d) ->
  get_or d "command" (PStr "search") = PStr "search" ->
  argv_parse by_flags = Parsed a_flags ->
  args_stdin a_flags = false ->
  args_command a_flags = Some "search" ->
  get_or d "question" (PStr "") = PStr (args_question a_flags) ->
  get_or d "n_results" (PInt 3) = PInt (args_n_results a_flags) ->
  get_or d "language" PNone = option_str (args_language a_flags) ->
  run by_document = run by_flags.
Proof.
  intros Hdoc Hstdin Hload Hcommand Hflags Hnostdin Hsearch Hq Hn Hl.
  unfold run, main, io_bind, parse_args, io_ret.
  rewrite Hdoc, Hflags, Hstdin, Hnostdin.
  rewrite (stdin_mode_search by_document d Hload Hcommand), Hq, Hn, Hl.
  unfold flag_mode, command_is. rewrite Hsearch. reflexivity.
Qed.

Lemma document_search_matches_flag_search_witness :
  @run Samples.python (Samples.answering Samples.two_hits)
     (Samples.document_invocation
        (Ret (PDict [("question", PStr "What is FSHD?");
                     ("n_results", PInt 1)]))) =
  @run Samples.python (Samples.answering Samples.two_hits)
     (Samples.flag_invocation (Some "search")).
Proof.
  apply (document_search_matches_flag_search Samples.python
           (Samples.answering Samples.two_hits)
           (Samples.document_invocation
              (Ret (PDict [("question", PStr "What is FSHD?");
                           ("n_results", PInt 1)])))
           (Samples.flag_invocation (Some "search"))
           Samples.with_stdin (Samples.flags (Some "search"))
           [("question", PStr "What is FSHD?"); ("n_results", PInt 1)]);
    reflexivity.
Defined.

(** The two modes agree on [stats] and [health]: a mapping whose
    [command] is one of them makes the run end exactly as that
    subcommand does on the command line; whatever else the mapping holds
    is not looked at. *)
Theorem document_command_matches_flag_command
    (interp : Interpreter) (backend : FSHDPDFProcessor)
    (by_document by_flags : Invocation) (a_document a_flags : Namespace)
    (d : list (string * pyval)) (name : string) :
  name = "stats" \/ name = "health" ->
  argv_parse by_document = Parsed a_document ->
  args_stdin a_document = true ->
  stdin_json by_document = Ret (PDict d) ->
  dict_lookup d "command" = Some (PStr name) ->
  argv_parse by_flags = Parsed a_flags ->
  args_stdin a_flags = false ->
  args_command a_flags = Some name ->
  run by_document = run by_flags.
Proof.
  intros Hname Hdoc Hstdin Hload Hcommand Hflags Hnostdin Hsub.
  unfold run, main, io_bind, parse_args, io_ret.
  rewrite Hdoc, Hflags, Hstdin, Hnostdin.
  assert (Hmode : lift (stdin_mode by_document) = flag_mode a_flags).
  { unfold stdin_mode. rewrite (stdin_try_mapping by_document d Hload).
    unfold get_or at 1. rewrite Hcommand. cbv zeta.
    unfold flag_mode, command_is. rewrite Hsub.
    destruct Hname as [-> | ->]; simpl eq_str; simpl String.eqb; cbv iota.
    - rewrite try_except_JSONDecodeError_transparent; [reflexivity|].
      intros e He. now apply stats_raises in He.
    - rewrite try_except_JSONDecodeError_transparent; [reflexivity|].
      intros e He. now apply health_raises in He. }
  now rewrite Hmode.
Qed.

Lemma document_command_matches_flag_command_witness :
  @run Samples.python Samples.collection_gone
     (Samples.document_invocation
        (Ret (PDict [("command", PStr "health"); ("question", PInt 7)]))) =
  @run Samples.python Samples.collection_gone
     (Samples.flag_invocation (Some "health")).
Proof.
  apply (document_command_matches_flag_command Samples.python
           Samples.collection_gone
           (Samples.document_invocation
              (Ret (PDict [("command", PStr "health"); ("question", PInt 7)])))
           (Samples.flag_invocation (Some "health"))
           Samples.with_stdin (Samples.flags (Some "health"))
           [("command", PStr "health"); ("question", PInt 7)] "health");
    try reflexivity.
  right; reflexivity.
Defined.

(** With [--stdin] the command line decides nothing else: two runs in
    document mode that read the same from standard input end alike,
    whatever subcommand and options each was given. *)
Theorem stdin_flag_overrides_command_line
    (interp : Interpreter) (backend : FSHDPDFProcessor)
    (inv1 inv2 : Invocation) (args1 args2 : Namespace) :
  argv_parse inv1 = Parsed args1 -> args_stdin args1 = true ->
  argv_parse inv2 = Parsed args2 -> args_stdin args2 = true ->
  stdin_json inv1 = stdin_json inv2 ->
  run inv1 = run inv2.
Proof.
  intros Hargs1 Hstdin1 Hargs2 Hstdin2 Hsame.
  unfold run, main, io_bind, parse_args, io_ret.
  rewrite Hargs1, Hargs2, Hstdin1, Hstdin2.
  unfold stdin_mode, stdin_try. now rewrite Hsame.
Qed.

Lemma stdin_flag_overrides_command_line_witness :
  @run Samples.python (Samples.answering Samples.two_hits)
     {| argv_parse :=
          Parsed {| args_stdin := true; args_command := Some "health";
                    args_question := ""; args_n_results := 3;
                    args_language := None |};
        stdin_json := Ret (PDict [("command", PStr "stats")]) |} =
  @run Samples.python (Samples.answering Samples.two_hits)
     (Samples.document_invocation (Ret (PDict [("command", PStr "stats")]))).
Proof.
  eapply (stdin_flag_overrides_command_line Samples.python
            (Samples.answering Samples.two_hits));
    reflexivity.
Defined.

(** ** [main]: what reaches standard output *)

Lemma search_kind `{FSHDPDFProcessor} q n l env :
  KnowledgeBridge.search q n l = Ret env -> is_success env \/ is_failure env.
Proof.
  intro Hs.
  destruct (search_returns_failure_or_try _ _ _ _ Hs)
    as [Ht | (e & _ & _ & ->)]; [|now right].
  apply search_try_returns in Ht.
  destruct Ht as (? & ? & ? & _ & _ & -> & _). now left.
Qed.

Lemma stats_kind `{FSHDPDFProcessor} env :
  KnowledgeBridge.stats = Ret env -> is_success env \/ is_failure env.
Proof.
  intro Hs. apply try_except_Exception_Ret in Hs.
  destruct Hs as [Hs | (e & _ & _ & [= <-])]; [|now right].
  bind_inv Hs as payload Hpayload. injection Hs as <-. now left.
Qed.

Lemma health_kind `{FSHDPDFProcessor} env :
  KnowledgeBridge.health = Ret env -> is_success env \/ is_failure env.
Proof.
  intro Hs. apply try_except_Exception_Ret in Hs.
  destruct Hs as [Hs | (e & _ & _ & [= <-])]; [|now right].
  bind_inv Hs as count Hcount. injection Hs as <-. now left.
Qed.

Lemma stdin_mode_kind `{Interpreter} `{FSHDPDFProcessor} inv env :
  stdin_mode inv = Ret env -> is_success env \/ is_failure env.
Proof.
  unfold stdin_mode, try_except_JSONDecodeError.
  destruct (stdin_try inv) as [result|e] eqn:Htry.
  - intros [= <-]. unfold stdin_try in Htry.
    bind_inv Htry as input_data Hload. bind_inv Htry as command Hcommand.
    destruct (eq_str command "search").
    { bind_inv Htry as question Hq. bind_inv Htry as n_results Hn.
      bind_inv Htry as language Hl. eapply search_kind, Htry. }
    destruct (eq_str command "stats"); [eapply stats_kind, Htry|].
    destruct (eq_str command "health"); [eapply health_kind, Htry|].
    injection Htry as <-. now right.
  - destruct (is_JSONDecodeError e); [|discriminate].
    intros [= <-]. now right.
Qed.

Lemma flag_mode_kind `{Interpreter} `{FSHDPDFProcessor} args s s' env :
  flag_mode args s = (s', Ret env) ->
  s' = s /\ (is_success env \/ is_failure env).
Proof.
  unfold flag_mode, lift.
  destruct (command_is args "search").
  { intros [= <- Hs]. split; [reflexivity | eapply search_kind, Hs]. }
  destruct (command_is args "stats").
  { intros [= <- Hs]. split; [reflexivity | eapply stats_kind, Hs]. }
  destruct (command_is args "health").
  { intros [= <- Hs]. split; [reflexivity | eapply health_kind, Hs]. }
  unfold io_bind, print_help, write_stdout, sys_exit, lift. discriminate.
Qed.

Lemma json_dumps_Ret (v : pyval) (text : document) :
  json_dumps v = Ret text -> text = Json v /\ serializable v.
Proof.
  unfold json_dumps, serializable.
  destruct (unserializable v); [discriminate|].
  now intros [= <-].
Qed.

(** A JSON document on standard output is the whole story of a run:
    whenever a run writes one, it is an envelope whose [success] is a
    boolean, it is the only thing written to either stream, the exit
    status is 0 and nothing was left uncaught.  So a caller that reads a
    JSON document never has to look at the exit status, and a run that
    ends otherwise has written no JSON. *)
Theorem json_on_stdout_means_clean_exit
    (interp : Interpreter) (backend : FSHDPDFProcessor)
    (inv : Invocation) (env : pyval) :
  In (Json env) (stdout (output (run inv))) ->
  run inv = printed env /\
  serializable env /\
  (is_success env \/ is_failure env).
Proof.
  unfold run, main, io_bind, parse_args, io_ret, lift, KnowledgeBridge.init.
  destruct (argv_parse inv) as [args| |].
  - destruct processor_init as [[]|e0].
    + destruct (args_stdin args).
      * destruct (stdin_mode inv) as [result|e] eqn:Hmode.
        -- destruct (json_dumps result) as [text|e] eqn:Hdumps.
           ++ apply json_dumps_Ret in Hdumps. destruct Hdumps as (-> & Hser).
              simpl. intros [[= <-] | []].
              split; [reflexivity|]. split; [exact Hser|].
              eapply stdin_mode_kind, Hmode.
           ++ destruct (exn_cls e); simpl; intros [].
        -- destruct (exn_cls e); simpl; intros [].
      * destruct (flag_mode args {| stdout := []; stderr := [] |})
          as [s' [result|e]] eqn:Hmode.
        -- apply flag_mode_kind in Hmode. destruct Hmode as (-> & Hkind).
           destruct (json_dumps result) as [text|e] eqn:Hdumps.
           ++ apply json_dumps_Ret in Hdumps. destruct Hdumps as (-> & Hser).
              simpl. intros [[= <-] | []].
              split; [reflexivity|]. split; [exact Hser | exact Hkind].
           ++ destruct (exn_cls e); simpl; intros [].
        -- unfold flag_mode, lift in Hmode.
           destruct (command_is args "search");
             [injection Hmode as <- _; destruct (exn_cls e); simpl; intros []|].
           destruct (command_is args "stats");
             [injection Hmode as <- _; destruct (exn_cls e); simpl; intros []|].
           destruct (command_is args "health");
             [injection Hmode as <- _; destruct (exn_cls e); simpl; intros []|].
           unfold io_bind, print_help, write_stdout, sys_exit, lift in Hmode.
           simpl in Hmode. injection Hmode as <- <-. simpl.
           intros [Hhelp | []]. discriminate Hhelp.
    + destruct (exn_cls e0); simpl; intros [].
  - simpl. intros [Hhelp | []]. discriminate Hhelp.
  - simpl. intros [].
Qed.

Lemma json_on_stdout_means_clean_exit_witness :
  @run Samples.python Samples.collection_gone
     (Samples.flag_invocation (Some "stats")) =
    printed (PDict [("success", PBool false);
                    ("error",
                     PStr "Collection fshd_knowledge_base does not exist.")]) /\
  serializable (PDict [("success", PBool false);
                       ("error",
                        PStr "Collection fshd_knowledge_base does not exist.")]) /\
  (is_success (PDict [("success", PBool false);
                      ("error",
                       PStr "Collection fshd_knowledge_base does not exist.")]) \/
   is_failure (PDict [("success", PBool false);
                      ("error",
                       PStr "Collection fshd_knowledge_base does not exist.")])).
Proof.
  apply (json_on_stdout_means_clean_exit Samples.python Samples.collection_gone
           (Samples.flag_invocation (Some "stats"))).
  left. reflexivity.
Defined.

(** A payload [json.dumps] refuses takes the run down: when the
    statistics the backend returned hold an object that is not JSON
    data, [stats] still builds its success envelope, but printing it
    raises outside every [try]; in either mode the run writes nothing
    and ends with the [TypeError] uncaught and exit status 1. *)
Theorem unserializable_stats_end_the_run
    (interp : Interpreter) (backend : FSHDPDFProcessor)
    (inv : Invocation) (args : Namespace) (payload : pyval) (cls : string) :
  argv_parse inv = Parsed args ->
  processor_init = Ret tt ->
  (args_stdin args = false /\ args_command args = Some "stats") \/
  (args_stdin args = true /\
   exists d, stdin_json inv = Ret (PDict d) /\
             dict_lookup d "command" = Some (PStr "stats")) ->
  get_collection_stats = Ret payload ->
  unserializable payload = Some cls ->
  run inv =
    {| output := {| stdout := []; stderr := [] |};
       exit_status := 1;
       uncaught := Some (mkExn TypeError
                           ("Object of type " ++ cls
                              ++ " is not JSON serializable")) |}.
Proof.
  intros Hargs Hinit Hmode Hpayload Hcls.
  assert (Hstats : KnowledgeBridge.stats =
                   Ret (PDict [("success", PBool true); ("stats", payload)])).
  { unfold KnowledgeBridge.stats. now rewrite Hpayload. }
  assert (Hdumps : json_dumps (PDict [("success", PBool true);
                                      ("stats", payload)]) =
                   Raise (mkExn TypeError
                            ("Object of type " ++ cls
                               ++ " is not JSON serializable"))).
  { unfold json_dumps. rewrite !unserializable_binding.
    simpl (unserializable (PBool true)). cbv iota. now rewrite Hcls. }
  unfold run, main, io_bind, parse_args, io_ret, KnowledgeBridge.init.
  rewrite Hargs, Hinit. unfold lift at 1. cbv beta iota.
  destruct Hmode as [(Hstdin & Hcommand) | (Hstdin & d & Hload & Hcommand)];
    rewrite Hstdin.
  - unfold flag_mode, command_is. rewrite Hcommand.
    change (String.eqb "stats" "search") with false.
    change (String.eqb "stats" "stats") with true.
    rewrite Hstats. unfold lift. cbv beta iota. now rewrite Hdumps.
  - assert (Hdoc : stdin_mode inv =
                   Ret (PDict [("success", PBool true); ("stats", payload)])).
    { unfold stdin_mode. rewrite (stdin_try_mapping inv d Hload).
      unfold get_or. rewrite Hcommand. cbv zeta. simpl eq_str. cbv iota.
      now rewrite Hstats. }
    rewrite Hdoc. unfold lift. cbv beta iota. now rewrite Hdumps.
Qed.

Lemma unserializable_stats_end_the_run_witness :
  @run Samples.python MoreSamples.dated_stats
     (Samples.flag_invocation (Some "stats")) =
    {| output := {| stdout := []; stderr := [] |};
       exit_status := 1;
       uncaught := Some (mkExn TypeError
                           ("Object of type " ++ "datetime"
                              ++ " is not JSON serializable")) |}.
Proof.
  apply (unserializable_stats_end_the_run Samples.python
           MoreSamples.dated_stats
           (Samples.flag_invocation (Some "stats"))
           (Samples.flags (Some "stats"))
           (PDict [("total_chunks", PInt 42);
                   ("last_updated", PObject "datetime")])
           "datetime");
    try reflexivity.
  left. split; reflexivity.
Defined.

(** The backend handle comes first: when the constructor of the backend
    raises an exception, every run whose arguments parse ends the same
    way, in either mode and whatever the subcommand: nothing is read
    from standard input, nothing is written to either stream, the
    exception is uncaught and the exit status is 1.  This holds even for
    the run that would only have printed the usage text. *)
Theorem constructor_failure_ends_every_run
    (interp : Interpreter) (backend : FSHDPDFProcessor)
    (inv : Invocation) (args : Namespace) (e : pyexn) :
  argv_parse inv = Parsed args ->
  processor_init = Raise e ->
  is_Exception e = true ->
  run inv = {| output := {| stdout := []; stderr := [] |};
               exit_status := 1;
               uncaught := Some e |}.
Proof.
  intros Hargs Hinit He.
  unfold run, main, io_bind, parse_args, io_ret, lift, KnowledgeBridge.init.
  rewrite Hargs, Hinit.
  unfold is_Exception in He. now destruct (exn_cls e).
Qed.

Lemma constructor_failure_ends_every_run_witness :
  @run Samples.python Samples.cannot_start (Samples.flag_invocation None) =
    {| output := {| stdout := []; stderr := [] |};
       exit_status := 1;
       uncaught := Some Samples.no_such_collection |}.
Proof.
  apply (constructor_failure_ends_every_run Samples.python Samples.cannot_start
           (Samples.flag_invocation None) (Samples.flags None));
    reflexivity.
Defined.

(** Whatever [search] answers echoes the question: the envelope it
    returns, success or failure, carries under [question] the very value
    it was called with, whatever the backend did. *)
Theorem search_always_echoes_question
    (backend : FSHDPDFProcessor) (q n l env : pyval) :
  KnowledgeBridge.search q n l = Ret env ->
  field env "question" = Some q /\ (is_success env \/ is_failure env).
Proof.
  intro Hs. split; [|eapply search_kind, Hs].
  destruct (search_returns_failure_or_try _ _ _ _ Hs)
    as [Ht | (e & _ & _ & ->)]; [|reflexivity].
  apply search_try_returns in Ht.
  destruct Ht as (? & ? & ? & _ & _ & -> & _). reflexivity.
Qed.

Lemma search_always_echoes_question_witness :
  field (PDict [("success", PBool false);
                ("error", PStr "list index out of range");
                ("question", PStr "What is FSHD?")]) "question"
    = Some (PStr "What is FSHD?") /\
  (is_success (PDict [("success", PBool false);
                      ("error", PStr "list index out of range");
                      ("question", PStr "What is FSHD?")]) \/
   is_failure (PDict [("success", PBool false);
                      ("error", PStr "list index out of range");
                      ("question", PStr "What is FSHD?")])).
Proof.
  apply (search_always_echoes_question
           (Samples.answering Samples.ragged_hits)
           (PStr "What is FSHD?") (PInt 3) PNone).
  reflexivity.
Defined.

(** Document mode translates [json.JSONDecodeError] and nothing else:
    when reading standard input raises another exception (undecodable
    bytes, for one), no envelope is made of it; the run writes nothing
    and ends with that exception uncaught and exit status 1. *)
Theorem other_input_errors_are_uncaught
    (interp : Interpreter) (backend : FSHDPDFProcessor)
    (inv : Invocation) (args : Namespace) (e : pyexn) :
  argv_parse inv = Parsed args ->
  args_stdin args = true ->
  processor_init = Ret tt ->
  stdin_json inv = Raise e ->
  is_JSONDecodeError e = false ->
  is_Exception e = true ->
  run inv = {| output := {| stdout := []; stderr := [] |};
               exit_status := 1;
               uncaught := Some e |}.
Proof.
  intros Hargs Hstdin Hinit Hload Hother He.
  unfold run, main, io_bind, parse_args, io_ret, lift, KnowledgeBridge.init.
  rewrite Hargs, Hinit, Hstdin.
  unfold stdin_mode, stdin_try, try_except_JSONDecodeError.
  rewrite Hload. simpl. rewrite Hother.
  unfold is_Exception in He. now destruct (exn_cls e).
Qed.

Lemma other_input_errors_are_uncaught_witness :
  @run Samples.python (Samples.answering Samples.two_hits)
     (Samples.document_invocation
        (Raise (mkExn (OtherException "UnicodeDecodeError")
                  "'utf-8' codec can't decode byte 0xff in position 0: invalid start byte"))) =
    {| output := {| stdout := []; stderr := [] |};
       exit_status := 1;
       uncaught :=
         Some (mkExn (OtherException "UnicodeDecodeError")
                 "'utf-8' codec can't decode byte 0xff in position 0: invalid start byte") |}.
Proof.
  apply (other_input_errors_are_uncaught Samples.python
           (Samples.answering Samples.two_hits)
           (Samples.document_invocation
              (Raise (mkExn (OtherException "UnicodeDecodeError")
                        "'utf-8' codec can't decode byte 0xff in position 0: invalid start byte")))
           Samples.with_stdin);
    reflexivity.
Defined.

(** * What standard output can encode *)

Example surrogate_detected :
  lone_surrogate (String (ascii_of_nat 237)
                    (String (ascii_of_nat 160)
                       (String (ascii_of_nat 128) ""))) = true.
Proof. reflexivity. Qed.

Example cjk_is_encodable : lone_surrogate "未知命令: ퟿" = false.
Proof. reflexivity. Qed.

Example surrogate_command_not_encodable :
  stdout_encodes
    (Json (PDict [("success", PBool false);
                  ("error",
                   PStr ("未知命令: "
                           ++ String (ascii_of_nat 237)
                                (String (ascii_of_nat 160)
                                   (String (ascii_of_nat 128) ""))))]))
    = false.
Proof. reflexivity. Qed.

Lemma lone_surrogate_app (x y : string) :
  lone_surrogate (x ++ y) = false ->
  lone_surrogate x = false /\ lone_surrogate y = false.
Proof.
  induction x as [|a x IH]; simpl; [auto|].
  intro H. apply orb_false_iff in H. destruct H as (Hhead & Htail).
  destruct (IH Htail) as (Hx & Hy). split; [|exact Hy].
  apply orb_false_iff. split; [|exact Hx].
  destruct x; [reflexivity | exact Hhead].
Qed.

Lemma ascii_only_app (x y : string) :
  ascii_only (x ++ y) = (ascii_only x && ascii_only y)%bool.
Proof.
  induction x as [|a x IH]; simpl; [reflexivity|].
  now rewrite IH, andb_assoc.
Qed.

Lemma starts_surrogate_ascii (a b : ascii) :
  (nat_of_ascii a <? 128)%nat = true -> starts_surrogate a b = false.
Proof.
  intro Ha. apply Nat.ltb_lt in Ha. unfold starts_surrogate.
  destruct (Nat.eqb_spec (nat_of_ascii a) 237); [lia | reflexivity].
Qed.

Lemma ascii_only_encodes (s : string) :
  ascii_only s = true -> lone_surrogate s = false.
Proof.
  induction s as [|a s IH]; simpl; [reflexivity|].
  intro H. apply andb_true_iff in H. destruct H as (Ha & Hs).
  rewrite (IH Hs), orb_false_r.
  destruct s; [reflexivity | now apply starts_surrogate_ascii].
Qed.

(** ASCII text in front of a str adds no surrogate to it. *)
Lemma lone_surrogate_after_ascii (x y : string) :
  ascii_only x = true -> lone_surrogate (x ++ y) = lone_surrogate y.
Proof.
  induction x as [|a x IH]; simpl; [reflexivity|].
  intro H. apply andb_true_iff in H. destruct H as (Ha & Hx).
  rewrite (IH Hx).
  destruct (x ++ y)%string; [|rewrite (starts_surrogate_ascii _ _ Ha)];
    reflexivity.
Qed.

Lemma uint_ascii_only (d : Decimal.uint) :
  ascii_only (NilEmpty.string_of_uint d) = true.
Proof. induction d; simpl; auto. Qed.

Lemma str_of_nat_ascii_only (i : nat) : ascii_only (str_of_nat i) = true.
Proof.
  unfold str_of_nat, NilZero.string_of_uint.
  destruct (Nat.to_uint i); try reflexivity; apply uint_ascii_only.
Qed.

Lemma string_of_int_ascii_only (z : Z) :
  ascii_only (NilZero.string_of_int (Z.to_int z)) = true.
Proof.
  unfold NilZero.string_of_int.
  destruct (Z.to_int z) as [d|d]; unfold NilZero.string_of_uint.
  - destruct d; try reflexivity; apply uint_ascii_only.
  - simpl. destruct d; try reflexivity; apply uint_ascii_only.
Qed.

(** The code points of a str, put back together, are the str. *)
Lemma code_points_aux_concat (s : string) :
  s = (fst (code_points_aux s)
         ++ fold_right String.append "" (snd (code_points_aux s)))%string.
Proof.
  induction s as [|a s IH]; simpl; [reflexivity|].
  destruct (code_points_aux s) as [pending done]. simpl in IH.
  destruct (is_continuation a); simpl; now rewrite <- IH.
Qed.

Lemma code_points_concat (s : string) :
  fold_right String.append "" (code_points s) = s.
Proof.
  unfold code_points. rewrite (code_points_aux_concat s) at 2.
  destruct (code_points_aux s) as [pending done]. simpl.
  destruct pending; reflexivity.
Qed.

Lemma concat_member (c : string) (l : list string) :
  In c l ->
  exists before after,
    fold_right String.append "" l = (before ++ c ++ after)%string.
Proof.
  induction l as [|x l IH]; [intros []|].
  intros [-> | Hin]; simpl.
  - exists "", (fold_right String.append "" l). reflexivity.
  - destruct (IH Hin) as (before & after & ->).
    exists (x ++ before)%string, after.
    clear. induction x as [|a x IHx]; simpl; [reflexivity | now f_equal].
Qed.

(** A character of a str with no lone surrogate is not one. *)
Lemma code_point_encodes (s c : string) (i : nat) :
  lone_surrogate s = false ->
  nth_error (code_points s) i = Some c ->
  lone_surrogate c = false.
Proof.
  intros Hs Hc. apply nth_error_In, concat_member in Hc.
  destruct Hc as (before & after & Hcat).
  rewrite code_points_concat in Hcat. rewrite Hcat in Hs.
  apply lone_surrogate_app in Hs. destruct Hs as (_ & Hs).
  apply lone_surrogate_app in Hs. tauto.
Qed.

Lemma encodable_cons (x : pyval) (l : list pyval) :
  encodable (PList (x :: l)) = (encodable x && encodable (PList l))%bool.
Proof. reflexivity. Qed.

Lemma encodable_binding (k : string) (x : pyval) (d : list (string * pyval)) :
  encodable (PDict ((k, x) :: d)) =
  (negb (lone_surrogate k) && encodable x && encodable (PDict d))%bool.
Proof. reflexivity. Qed.

Lemma encodable_list (l : list pyval) :
  encodable (PList l) = true <-> Forall (fun x => encodable x = true) l.
Proof.
  induction l as [|x l IH].
  - split; [constructor | reflexivity].
  - rewrite encodable_cons, andb_true_iff. split.
    + intros (Hx & Hl). constructor; [exact Hx | now apply IH].
    + intro H. inversion H as [|? ? Hx Hl]; subst. split; [exact Hx | now apply IH].
Qed.

Lemma encodable_lookup (d : list (string * pyval)) (key : string) (x : pyval) :
  encodable (PDict d) = true -> dict_lookup d key = Some x ->
  encodable x = true.
Proof.
  induction d as [|[k v] d IH]; [discriminate|].
  rewrite encodable_binding, !andb_true_iff. intros ((_ & Hv) & Hd). simpl.
  destruct (String.eqb k key); [now intros [= <-] | now apply IH].
Qed.

Lemma encodable_getitem_str v key x :
  encodable v = true -> getitem_str v key = Ret x -> encodable x = true.
Proof.
  intros Hv Hx. apply getitem_str_field in Hx.
  destruct v; try discriminate Hx. eapply encodable_lookup; eassumption.
Qed.

Lemma encodable_getitem_idx v i x :
  encodable v = true -> getitem_idx v i = Ret x -> encodable x = true.
Proof.
  intros Hv. destruct v; simpl; try discriminate.
  - destruct (nth_error (code_points s) i) as [c|] eqn:Hc; [|discriminate].
    intros [= <-]. simpl in *. apply negb_true_iff in Hv.
    now rewrite (code_point_encodes s c i Hv Hc).
  - destruct (nth_error l i) eqn:Ei; [|discriminate].
    intros [= <-]. apply encodable_list in Hv.
    rewrite Forall_forall in Hv. eapply Hv, nth_error_In, Ei.
Qed.

Lemma encodable_entry column i x :
  encodable column = true -> entry column i = Ret x -> encodable x = true.
Proof.
  intros Hc He. unfold entry in He. bind_inv He as first Hfirst.
  eapply encodable_getitem_idx; [|exact He].
  eapply encodable_getitem_idx; eassumption.
Qed.

Lemma encodable_get_or d key default :
  encodable (PDict d) = true -> encodable default = true ->
  encodable (get_or d key default) = true.
Proof.
  intros Hd Hdefault. unfold get_or.
  destruct (dict_lookup d key) eqn:Hk; [|exact Hdefault].
  eapply encodable_lookup; eassumption.
Qed.

Lemma encodable_result_item `{FSHDPDFProcessor} results i item :
  encodable results = true ->
  KnowledgeBridge.result_item results i = Ret item -> encodable item = true.
Proof.
  intros Hr Hi. unfold KnowledgeBridge.result_item in Hi.
  bind_inv Hi as ids Hids. bind_inv Hi as id Hid.
  bind_inv Hi as documents Hdocs. bind_inv Hi as documents0 Hdocs0.
  bind_inv Hi as content Hcontent.
  bind_inv Hi as metadatas Hmds. bind_inv Hi as metadata Hmd.
  bind_inv Hi as got Hgot. bind_inv Hi as distance Hdist.
  injection Hi as <-.
  pose proof (encodable_getitem_str _ _ _ Hr Hids) as Sids.
  pose proof (encodable_getitem_str _ _ _ Hr Hdocs) as Sdocs.
  pose proof (encodable_getitem_str _ _ _ Hr Hmds) as Smds.
  assert (Hid' : encodable id = true).
  { destruct (truthy ids).
    - exact (encodable_entry _ _ _ Sids Hid).
    - injection Hid as <-.
      change (negb (lone_surrogate ("result_" ++ str_of_nat i)) = true).
      rewrite (lone_surrogate_after_ascii "result_" _ eq_refl).
      now rewrite (ascii_only_encodes _ (str_of_nat_ascii_only i)). }
  assert (Hcontent' : encodable content = true).
  { eapply encodable_getitem_idx; [|exact Hcontent].
    exact (encodable_getitem_idx _ _ _ Sdocs Hdocs0). }
  assert (Hmd' : encodable metadata = true).
  { destruct (truthy metadatas).
    - exact (encodable_entry _ _ _ Smds Hmd).
    - now injection Hmd as <-. }
  assert (Hdist' : encodable distance = true).
  { destruct (truthy got).
    - bind_inv Hdist as distances Hd.
      pose proof (encodable_getitem_str _ _ _ Hr Hd) as Sd.
      exact (encodable_entry _ _ _ Sd Hdist).
    - now injection Hdist as <-. }
  rewrite !encodable_binding, Hid', Hcontent', Hmd', Hdist'. reflexivity.
Qed.

(** ** The texts of the exceptions the conversion raises *)

Lemma raises_encodable_Ret {A : Type} (a : A) : raises_encodable (Ret a).
Proof. intros e H; discriminate. Qed.

Lemma raises_encodable_bind {A B : Type} (m : outcome A) (k : A -> outcome B) :
  raises_encodable m -> (forall a, m = Ret a -> raises_encodable (k a)) ->
  raises_encodable (bind m k).
Proof.
  intros Hm Hk e He. apply bind_Raise in He.
  destruct He as [He | (a & Ha & He)]; [now apply Hm | now apply (Hk a Ha)].
Qed.

Lemma quoted_ascii_encodes (key : string) :
  ascii_only key = true -> lone_surrogate ("'" ++ key ++ "'") = false.
Proof.
  intro Hkey. apply ascii_only_encodes.
  change ("'" ++ key ++ "'")%string with (String "'" (key ++ "'")).
  simpl. now rewrite ascii_only_app, Hkey.
Qed.

Lemma getitem_str_raises_encodable v key :
  serializable v -> ascii_only key = true ->
  raises_encodable (getitem_str v key).
Proof.
  intros Hv Hkey e. destruct v; simpl; try discriminate Hv;
    try (now intros [= <-]).
  destruct (dict_lookup d key); [discriminate|].
  intros [= <-]. now apply quoted_ascii_encodes.
Qed.

Lemma getitem_idx_raises_encodable v i :
  serializable v -> raises_encodable (getitem_idx v i).
Proof.
  intros Hv e. destruct v; simpl; try discriminate Hv;
    try (now intros [= <-]).
  - destruct (nth_error (code_points s) i); [discriminate | now intros [= <-]].
  - destruct (nth_error l i); [discriminate | now intros [= <-]].
  - intros [= <-]. apply ascii_only_encodes, str_of_nat_ascii_only.
Qed.

Lemma py_len_raises_encodable v :
  serializable v -> raises_encodable (py_len v).
Proof.
  intros Hv e. destruct v; simpl; try discriminate Hv; try discriminate;
    now intros [= <-].
Qed.

Lemma py_get_raises_encodable v key default :
  serializable v -> raises_encodable (py_get v key default).
Proof.
  intros Hv e. destruct v; simpl; try discriminate Hv;
    try (now intros [= <-]).
  destruct (dict_lookup d key); discriminate.
Qed.

Lemma entry_raises_encodable column i :
  serializable column ->
  raises_encodable (first <- getitem_idx column 0 ;; getitem_idx first i).
Proof.
  intro Hc. apply raises_encodable_bind.
  - now apply getitem_idx_raises_encodable.
  - intros first Hfirst. apply getitem_idx_raises_encodable.
    eapply serializable_getitem_idx; eassumption.
Qed.

Lemma result_item_raises_encodable `{FSHDPDFProcessor} results i :
  serializable results ->
  raises_encodable (KnowledgeBridge.result_item results i).
Proof.
  intro Hr. unfold KnowledgeBridge.result_item.
  apply raises_encodable_bind;
    [now apply getitem_str_raises_encodable | intros ids Hids].
  pose proof (serializable_getitem_str _ _ _ Hr Hids) as Sids.
  apply raises_encodable_bind; [|intros id _].
  { destruct (truthy ids);
      [now apply entry_raises_encodable | apply raises_encodable_Ret]. }
  apply raises_encodable_bind;
    [now apply getitem_str_raises_encodable | intros documents Hdocs].
  pose proof (serializable_getitem_str _ _ _ Hr Hdocs) as Sdocs.
  apply raises_encodable_bind;
    [now apply getitem_idx_raises_encodable | intros documents0 Hdocs0].
  pose proof (serializable_getitem_idx _ _ _ Sdocs Hdocs0) as Sdocs0.
  apply raises_encodable_bind;
    [now apply getitem_idx_raises_encodable | intros content _].
  apply raises_encodable_bind;
    [now apply getitem_str_raises_encodable | intros metadatas Hmds].
  pose proof (serializable_getitem_str _ _ _ Hr Hmds) as Smds.
  apply raises_encodable_bind; [|intros metadata _].
  { destruct (truthy metadatas);
      [now apply entry_raises_encodable | apply raises_encodable_Ret]. }
  apply raises_encodable_bind;
    [now apply py_get_raises_encodable | intros got _].
  apply raises_encodable_bind; [|intros distance _; apply raises_encodable_Ret].
  destruct (truthy got); [|apply raises_encodable_Ret].
  apply raises_encodable_bind;
    [now apply getitem_str_raises_encodable | intros distances Hd].
  apply entry_raises_encodable.
  exact (serializable_getitem_str _ _ _ Hr Hd).
Qed.

Lemma len_documents0_raises_encodable `{FSHDPDFProcessor} results :
  serializable results ->
  raises_encodable (KnowledgeBridge.len_documents0 results).
Proof.
  intro Hr. unfold KnowledgeBridge.len_documents0.
  apply raises_encodable_bind;
    [now apply getitem_str_raises_encodable | intros documents Hdocs].
  pose proof (serializable_getitem_str _ _ _ Hr Hdocs) as Sdocs.
  apply raises_encodable_bind;
    [now apply getitem_idx_raises_encodable | intros first Hfirst].
  apply py_len_raises_encodable.
  exact (serializable_getitem_idx _ _ _ Sdocs Hfirst).
Qed.

Lemma for_each_raises_encodable {A S : Type} (xs : list A)
    (body : A -> S -> outcome S) :
  (forall x s, raises_encodable (body x s)) ->
  forall s, raises_encodable (for_each xs body s).
Proof.
  intro Hbody. induction xs as [|x xs IH]; intro s; simpl.
  - apply raises_encodable_Ret.
  - apply raises_encodable_bind; [apply Hbody | intros s' _; apply IH].
Qed.

(** Once the backend has returned JSON data, the text of whatever the
    conversion raises is ASCII. *)
Lemma conversion_raises_encodable `{FSHDPDFProcessor} q n l results e :
  search_fshd_knowledge q n l = Ret results ->
  serializable results ->
  KnowledgeBridge.search_try q n l = Raise e ->
  lone_surrogate (exn_str e) = false.
Proof.
  intros Hcall Hr. unfold KnowledgeBridge.search_try. rewrite Hcall.
  cbn [bind]. revert e.
  match goal with |- forall e, ?m = Raise e -> _ =>
    change (raises_encodable m) end.
  apply raises_encodable_bind;
    [now apply getitem_str_raises_encodable | intros documents _].
  apply raises_encodable_bind; [|intros total _].
  { destruct (truthy documents);
      [now apply len_documents0_raises_encodable | apply raises_encodable_Ret]. }
  apply raises_encodable_bind;
    [now apply getitem_str_raises_encodable | intros documents' _].
  apply raises_encodable_bind; [|intros nonempty _].
  { destruct (truthy documents'); [|apply raises_encodable_Ret].
    apply raises_encodable_bind;
      [now apply len_documents0_raises_encodable
      | intros; apply raises_encodable_Ret]. }
  apply raises_encodable_bind; [|intros; apply raises_encodable_Ret].
  destruct nonempty; [|apply raises_encodable_Ret].
  apply raises_encodable_bind;
    [now apply len_documents0_raises_encodable | intros k _].
  apply for_each_raises_encodable. intros i acc.
  apply raises_encodable_bind;
    [now apply result_item_raises_encodable
    | intros; apply raises_encodable_Ret].
Qed.

(** ** The envelopes standard output can encode *)

(** A prefix that ends in a space adds no surrogate to what follows. *)
Lemma lone_surrogate_after_space (x y : string) :
  lone_surrogate ((x ++ " ") ++ y) =
  (lone_surrogate (x ++ " ") || lone_surrogate y)%bool.
Proof.
  induction x as [|a x IH].
  - simpl. destruct y; reflexivity.
  - change ((String a x ++ " ") ++ y)%string
      with (String a ((x ++ " ") ++ y)).
    change (String a x ++ " ")%string with (String a (x ++ " ")).
    cbn [lone_surrogate]. rewrite IH, orb_assoc. f_equal. f_equal.
    destruct x; reflexivity.
Qed.

Lemma unknown_command_text_encodes (t : string) :
  lone_surrogate ("未知命令: " ++ t) = lone_surrogate t.
Proof. exact (lone_surrogate_after_space "未知命令:" t). Qed.

Lemma parse_error_text_encodes (t : string) :
  lone_surrogate ("JSON解析错误: " ++ t) = lone_surrogate t.
Proof. exact (lone_surrogate_after_space "JSON解析错误:" t). Qed.

Lemma py_str_encodes `{Interpreter} (v : pyval) :
  (forall x, lone_surrogate (py_repr x) = false) ->
  encodable v = true -> lone_surrogate (py_str v) = false.
Proof.
  intros Hrepr Hv. destruct v; simpl; try apply Hrepr; try reflexivity.
  - now destruct b.
  - apply ascii_only_encodes, string_of_int_ascii_only.
  - simpl in Hv. now apply negb_true_iff in Hv.
Qed.

Lemma search_encodes `{FSHDPDFProcessor} q n l env :
  KnowledgeBridge.search q n l = Ret env ->
  encodable q = true ->
  (forall results, search_fshd_knowledge q n l = Ret results ->
                   serializable results /\ encodable results = true) ->
  raises_encodable (search_fshd_knowledge q n l) ->
  encodable env = true.
Proof.
  intros Hs Hq Hreturns Hraises.
  destruct (search_returns_failure_or_try _ _ _ _ Hs)
    as [Ht | (e & Ht & _ & ->)].
  - apply search_try_returns in Ht.
    destruct Ht as (results & documents & items & Hcall & _ & -> & _ & Hitems).
    destruct (Hreturns _ Hcall) as (_ & Hr).
    assert (Hall : encodable (PList items) = true).
    { apply encodable_list, Forall_forall. intros item Hin.
      apply In_nth_error in Hin. destruct Hin as [i Hi].
      eapply encodable_result_item; [exact Hr | exact (Hitems i item Hi)]. }
    rewrite !encodable_binding, Hq, Hall. reflexivity.
  - assert (He : lone_surrogate (exn_str e) = false).
    { destruct (search_fshd_knowledge q n l) as [results|e'] eqn:Hcall.
      - eapply conversion_raises_encodable; try eassumption.
        now apply Hreturns.
      - apply Hraises. unfold KnowledgeBridge.search_try in Ht.
        rewrite Hcall in Ht. exact Ht. }
    unfold KnowledgeBridge.search_failed.
    rewrite !encodable_binding, Hq. cbn [encodable]. now rewrite He.
Qed.

Lemma stats_encodes `{FSHDPDFProcessor} env :
  KnowledgeBridge.stats = Ret env ->
  (forall r, get_collection_stats = Ret r -> encodable r = true) ->
  raises_encodable get_collection_stats ->
  encodable env = true.
Proof.
  intros Hs Hreturns Hraises. apply try_except_Exception_Ret in Hs.
  destruct Hs as [Hs | (e & Hbody & _ & [= <-])].
  - bind_inv Hs as payload Hpayload. injection Hs as <-.
    rewrite !encodable_binding, (Hreturns _ Hpayload). reflexivity.
  - assert (He : lone_surrogate (exn_str e) = false).
    { apply Hraises. destruct get_collection_stats; [discriminate | exact Hbody]. }
    rewrite !encodable_binding. cbn [encodable]. now rewrite He.
Qed.

Lemma health_encodes `{FSHDPDFProcessor} env :
  KnowledgeBridge.health = Ret env ->
  (forall r, collection_count = Ret r -> encodable r = true) ->
  raises_encodable collection_count ->
  encodable env = true.
Proof.
  intros Hs Hreturns Hraises. apply try_except_Exception_Ret in Hs.
  destruct Hs as [Hs | (e & Hbody & _ & [= <-])].
  - bind_inv Hs as count Hcount. injection Hs as <-.
    rewrite !encodable_binding, (Hreturns _ Hcount). reflexivity.
  - assert (He : lone_surrogate (exn_str e) = false).
    { apply Hraises. destruct collection_count; [discriminate | exact Hbody]. }
    rewrite !encodable_binding. cbn [encodable]. now rewrite He.
Qed.

(** Document mode on a mapping with no lone surrogate answers an
    envelope with none. *)
Lemma stdin_mode_encodes `{Interpreter} `{backend : FSHDPDFProcessor}
    inv d env :
  stdin_json inv = Ret (PDict d) ->
  encodable (PDict d) = true ->
  (forall x, lone_surrogate (py_repr x) = false) ->
  returns_serializable backend -> speaks_encodable backend ->
  stdin_mode inv = Ret env ->
  encodable env = true.
Proof.
  intros Hload Hd Hrepr (Ssearch & _ & _)
    (Esearch & Estats & Ecount & Rsearch & Rstats & Rcount).
  unfold stdin_mode, try_except_JSONDecodeError.
  rewrite (stdin_try_mapping inv d Hload). cbv zeta.
  pose proof (encodable_get_or d "command" (PStr "search") Hd eq_refl)
    as Hcommand.
  destruct (eq_str (get_or d "command" (PStr "search")) "search").
  { destruct (KnowledgeBridge.search _ _ _) as [result|e] eqn:Hs.
    - intros [= <-]. eapply search_encodes; try exact Hs.
      + now apply encodable_get_or.
      + intros results Hcall. split; [eapply Ssearch | eapply Esearch];
          exact Hcall.
      + apply Rsearch.
    - apply search_raises in Hs. destruct Hs as (_ & He).
      destruct (is_JSONDecodeError e) eqn:Hj; [|discriminate].
      apply JSONDecodeError_is_Exception in Hj. congruence. }
  destruct (eq_str (get_or d "command" (PStr "search")) "stats").
  { destruct KnowledgeBridge.stats as [result|e] eqn:Hs.
    - intros [= <-]. now apply stats_encodes.
    - apply stats_raises in Hs. destruct Hs as (_ & He).
      destruct (is_JSONDecodeError e) eqn:Hj; [|discriminate].
      apply JSONDecodeError_is_Exception in Hj. congruence. }
  destruct (eq_str (get_or d "command" (PStr "search")) "health").
  { destruct KnowledgeBridge.health as [result|e] eqn:Hs.
    - intros [= <-]. now apply health_encodes.
    - apply health_raises in Hs. destruct Hs as (_ & He).
      destruct (is_JSONDecodeError e) eqn:Hj; [|discriminate].
      apply JSONDecodeError_is_Exception in Hj. congruence. }
  intro Henv.
  apply (f_equal (fun o => match o with Ret v => v | Raise _ => PNone end))
    in Henv.
  cbv beta iota in Henv. subst env.
  rewrite !encodable_binding. cbn [encodable].
  now rewrite unknown_command_text_encodes, (py_str_encodes _ Hrepr Hcommand).
Qed.

(** Flag mode on a question with no lone surrogate answers an envelope
    with none. *)
Lemma flag_mode_encodes `{Interpreter} `{backend : FSHDPDFProcessor}
    args env :
  lone_surrogate (args_question args) = false ->
  returns_serializable backend -> speaks_encodable backend ->
  flag_mode args = lift (Ret env) ->
  encodable env = true.
Proof.
  intros Hq (Ssearch & _ & _)
    (Esearch & Estats & Ecount & Rsearch & Rstats & Rcount).
  unfold flag_mode.
  destruct (command_is args "search").
  { intro Hmode.
    assert (Hs : KnowledgeBridge.search (PStr (args_question args))
                   (PInt (args_n_results args))
                   (option_str (args_language args)) = Ret env).
    { apply (f_equal (fun m => snd (m {| stdout := []; stderr := [] |})))
        in Hmode. exact Hmode. }
    eapply search_encodes; try exact Hs.
    - cbn [encodable]. now rewrite Hq.
    - intros results Hcall. split; [eapply Ssearch | eapply Esearch];
        exact Hcall.
    - apply Rsearch. }
  destruct (command_is args "stats").
  { intro Hmode.
    apply (f_equal (fun m => snd (m {| stdout := []; stderr := [] |})))
      in Hmode. simpl in Hmode. now apply stats_encodes. }
  destruct (command_is args "health").
  { intro Hmode.
    apply (f_equal (fun m => snd (m {| stdout := []; stderr := [] |})))
      in Hmode. simpl in Hmode. now apply health_encodes. }
  intro Hmode.
  apply (f_equal (fun m => snd (m {| stdout := []; stderr := [] |})))
    in Hmode. discriminate Hmode.
Qed.

(** C9, as amended: in document mode, once the backend client handle is
    constructed, a mapping whose [command] is none of [search], [stats],
    [health] and renders to a str with no lone surrogate makes the
    program print, as its only output, a failure envelope whose [error]
    ends with the offending value (a string as it is, any other value as
    [str] renders it), and exit with status zero; the envelope is one
    standard output encodes. *)
Theorem unknown_command_failure_envelope
    (interp : Interpreter) (backend : FSHDPDFProcessor)
    (inv : Invocation) (args : Namespace)
    (d : list (string * pyval)) (command : pyval) :
  argv_parse inv = Parsed args ->
  args_stdin args = true ->
  processor_init = Ret tt ->
  stdin_json inv = Ret (PDict d) ->
  dict_lookup d "command" = Some command ->
  command <> PStr "search" -> command <> PStr "stats" ->
  command <> PStr "health" ->
  lone_surrogate (py_str command) = false ->
  run inv = printed (PDict [("success", PBool false);
                            ("error", PStr ("未知命令: " ++ py_str command))]) /\
  stdout_encodes
    (Json (PDict [("success", PBool false);
                  ("error", PStr ("未知命令: " ++ py_str command))])) = true /\
  contains ("未知命令: " ++ py_str command) (py_str command) /\
  (forall s, command = PStr s -> py_str command = s).
Proof.
  intros Hargs Hstdin Hinit Hload Hcommand Hsearch Hstats Hhealth Hencodes.
  split; [|split; [|split]].
  - eapply run_document_mode; try eassumption; [|reflexivity].
    unfold stdin_mode, stdin_try. rewrite Hload. simpl.
    rewrite Hcommand. simpl.
    now rewrite !eq_str_false by assumption.
  - cbn [stdout_encodes]. rewrite !encodable_binding. cbn [encodable].
    now rewrite unknown_command_text_encodes, Hencodes.
  - apply contains_suffix.
  - now intros s ->.
Qed.

Lemma unknown_command_failure_envelope_witness :
  @run Samples.python Samples.collection_gone
     (Samples.document_invocation (Ret (PDict [("command", PStr "bogus")]))) =
    printed (PDict [("success", PBool false);
                    ("error", PStr ("未知命令: " ++ "bogus"))]) /\
  stdout_encodes
    (Json (PDict [("success", PBool false);
                  ("error", PStr ("未知命令: " ++ "bogus"))])) = true /\
  contains ("未知命令: " ++ "bogus") "bogus" /\
  (forall s, PStr "bogus" = PStr s -> "bogus" = s).
Proof.
  apply (unknown_command_failure_envelope Samples.python
           Samples.collection_gone
           (Samples.document_invocation
              (Ret (PDict [("command", PStr "bogus")])))
           Samples.with_stdin [("command", PStr "bogus")] (PStr "bogus"));
    try reflexivity; discriminate.
Defined.

(** C1, as amended: for every invocation whose arguments parse, other
    than flag mode with no recognised subcommand, provided the backend
    client handle is constructed without raising, the document-mode
    input is either malformed JSON or a JSON mapping, the backend
    raises instances of [Exception] only and returns serialisable
    values, and no str that comes in (the question on the command line,
    the input mapping, what the backend returns and the text of what it
    raises) holds a lone surrogate: exactly one JSON envelope, one that
    standard output encodes, is written to it, nothing escapes and the
    exit status is zero.  Each of the three operations returns an
    envelope whatever the backend call does: its failures are caught at
    the operation boundary.  When the constructor raises an exception
    instead, it is not caught: the run ends with it, exit status 1, and
    writes nothing. *)
Theorem one_envelope_once_bridge_constructed
    (interp : Interpreter) (backend : FSHDPDFProcessor)
    (inv : Invocation) (args : Namespace) :
  argv_parse inv = Parsed args ->
  ~ usage_case args ->
  (args_stdin args = true ->
   (exists e, stdin_json inv = Raise e /\ is_JSONDecodeError e = true /\
              lone_surrogate (exn_str e) = false) \/
   (exists d, stdin_json inv = Ret (PDict d) /\ serializable (PDict d) /\
              encodable (PDict d) = true)) ->
  (args_stdin args = false -> lone_surrogate (args_question args) = false) ->
  (forall v, lone_surrogate (py_repr v) = false) ->
  raises_only_Exception backend ->
  returns_serializable backend ->
  speaks_encodable backend ->
  (processor_init = Ret tt ->
   exists env,
     run inv = {| output := {| stdout := [Json env]; stderr := [] |};
                  exit_status := 0;
                  uncaught := None |} /\
     stdout_encodes (Json env) = true /\
     (is_success env \/ is_failure env)) /\
  (forall e,
     processor_init = Raise e -> is_Exception e = true ->
     run inv = {| output := {| stdout := []; stderr := [] |};
                  exit_status := 1;
                  uncaught := Some e |}) /\
  (forall q n l, exists env, KnowledgeBridge.search q n l = Ret env) /\
  (exists env, KnowledgeBridge.stats = Ret env) /\
  (exists env, KnowledgeBridge.health = Ret env).
Proof.
  intros Hargs Hnot Hinput Hquestion Hrepr Hraises Hreturns Hspeaks.
  split; [|split].
  - intro Hinit. destruct (args_stdin args) eqn:Hstdin.
    + destruct (Hinput eq_refl)
        as [(e & Hload & Hdecode & Htext) | (d & Hload & Hd & Hclean)].
      * exists (PDict [("success", PBool false);
                       ("error", PStr ("JSON解析错误: " ++ exn_str e))]).
        split; [|split; [|now right]].
        -- eapply run_document_mode; try eassumption; [|reflexivity].
           unfold stdin_mode, stdin_try, try_except_JSONDecodeError.
           rewrite Hload. simpl. now rewrite Hdecode.
        -- cbn [stdout_encodes]. rewrite !encodable_binding.
           cbn [encodable]. now rewrite parse_error_text_encodes, Htext.
      * destruct (stdin_mode_mapping inv d Hload Hd Hraises Hreturns)
          as (env & Hmode & Hser & Hkind).
        exists env. split; [|split; [|exact Hkind]].
        -- eapply run_document_mode; eassumption.
        -- eapply (stdin_mode_encodes inv d env); eassumption.
    + destruct (flag_mode_recognised args Hstdin Hnot Hraises Hreturns)
        as (env & Hmode & Hser & Hkind).
      exists env. split; [|split; [|exact Hkind]].
      * eapply run_flag_mode; eassumption.
      * eapply (flag_mode_encodes args env); try eassumption.
        now apply Hquestion.
  - intros e Hinit He.
    unfold run, main, io_bind, parse_args, io_ret, lift, KnowledgeBridge.init.
    rewrite Hargs, Hinit.
    unfold is_Exception in He. now destruct (exn_cls e).
  - destruct Hraises as (Rsearch & Rstats & Rcount).
    split; [|split].
    + intros q n l. apply search_returns, Rsearch.
    + now apply stats_returns.
    + now apply health_returns.
Qed.

Lemma one_envelope_once_bridge_constructed_witness :
  (@processor_init Samples.collection_gone = Ret tt ->
   exists env,
     @run MoreSamples.escaping Samples.collection_gone
        (Samples.flag_invocation (Some "health")) =
       {| output := {| stdout := [Json env]; stderr := [] |};
          exit_status := 0;
          uncaught := None |} /\
     stdout_encodes (Json env) = true /\
     (is_success env \/ is_failure env)) /\
  (forall e,
     @processor_init Samples.collection_gone = Raise e ->
     is_Exception e = true ->
     @run MoreSamples.escaping Samples.collection_gone
        (Samples.flag_invocation (Some "health")) =
       {| output := {| stdout := []; stderr := [] |};
          exit_status := 1;
          uncaught := Some e |}) /\
  (forall q n l,
     exists env, @KnowledgeBridge.search Samples.collection_gone q n l = Ret env) /\
  (exists env, @KnowledgeBridge.stats Samples.collection_gone = Ret env) /\
  (exists env, @KnowledgeBridge.health Samples.collection_gone = Ret env).
Proof.
  apply (one_envelope_once_bridge_constructed MoreSamples.escaping
           Samples.collection_gone
           (Samples.flag_invocation (Some "health"))
           (Samples.flags (Some "health"))).
  - reflexivity.
  - intros (_ & _ & _ & Hhealth). discriminate Hhealth.
  - intro Hstdin. discriminate Hstdin.
  - intros _. reflexivity.
  - intro v. destruct v; reflexivity.
  - repeat split; intros; simpl in *;
      match goal with
      | Hr : Raise _ = Raise _ |- _ => now injection Hr as <-
      end.
  - repeat split; intros; discriminate.
  - unfold speaks_encodable, raises_encodable. repeat split; intros;
      simpl in *; try discriminate;
      match goal with
      | Hr : Raise _ = Raise _ |- _ => now injection Hr as <-
      end.
Defined.
